(** * Kryptex response bot: a shallow embedding of [bot.py]

    The bot keeps three process-wide collections, [ADMINS], [MODERATORS]
    (lists of integers) and [COMMANDS] (a dict from command token to
    response text).  Six handlers read and update them, answer through the
    transport ([reply_text], [send_message], [delete_message]), rewrite the
    JSON files after each mutation and write log records.

    Modelling choices.
    - Python [int] is unbounded: identities are [Z].
    - Text is [string]; one [ascii] is one character, so the model covers
      text whose code points are below 256.  On that domain [split] and
      [py_int] follow Python's [str.split()] and [int()].
    - A dict is an association list in insertion order: a store to an
      existing key keeps the key's position, a store to a new key appends.
    - A handler is a computation in the monad [M]: it threads the three
      globals, appends to a trace of observable events, and either returns
      or raises.  File writes and log records are events of the trace.
    - [update.effective_user], [update.message] and [update.effective_chat]
      are taken to be present. *)

From Stdlib Require Import ZArith List String Ascii Bool Lia.
From Stdlib Require Import Decimal DecimalPos DecimalString.
Import ListNotations.

Open Scope list_scope.
Open Scope string_scope.

(** ** Python strings *)

Module PyStr.

(** The newline character of the ["\n"] literals. *)
Definition nl : string := String (ascii_of_nat 10) EmptyString.

(** [str.isspace] on one character: TAB..CR, FS..US, SPACE, NEL, NBSP. *)
Definition isspace (c : ascii) : bool :=
  let n := nat_of_ascii c in
  ((9 <=? n) && (n <=? 13) || (28 <=? n) && (n <=? 32)
   || (n =? 133) || (n =? 160))%nat.

(** [text.split()]: maximal runs of non-space characters, in order.
    [cur] is the token being read. *)
Fixpoint split_from (cur s : string) : list string :=
  match s with
  | EmptyString =>
      match cur with EmptyString => [] | _ => [cur] end
  | String c r =>
      if isspace c then
        match cur with
        | EmptyString => split_from EmptyString r
        | _ => cur :: split_from EmptyString r
        end
      else split_from (cur ++ String c EmptyString) r
  end.

Definition split (s : string) : list string := split_from EmptyString s.

(** [sep.join(l)] *)
Fixpoint join (sep : string) (l : list string) : string :=
  match l with
  | [] => EmptyString
  | x :: r =>
      match r with
      | [] => x
      | _ :: _ => x ++ sep ++ join sep r
      end
  end.

(** [str(n)] for an integer, as the f-strings format it. *)
Definition py_str (n : Z) : string := NilZero.string_of_int (Z.to_int n).

Definition digit_of (c : ascii) : option Z :=
  let n := nat_of_ascii c in
  if ((48 <=? n) && (n <=? 57))%nat then Some (Z.of_nat (n - 48)) else None.

(** The digits after the first one; a single underscore may stand
    between two digits.  [after_us] records that the previous character
    was an underscore. *)
Fixpoint digits_from (acc : Z) (after_us : bool) (s : string) : option Z :=
  match s with
  | EmptyString => if after_us then None else Some acc
  | String c r =>
      match digit_of c with
      | Some d => digits_from (10 * acc + d) false r
      | None =>
          if Ascii.eqb c "_" && negb after_us
          then digits_from acc true r
          else None
      end
  end.

Definition literal (s : string) : option Z :=
  match s with
  | EmptyString => None
  | String c r =>
      match digit_of c with
      | Some d => digits_from d false r
      | None => None
      end
  end.

(** [int(s)] on an argument of the message (arguments come from
    [split], so they hold no white space): an optional sign and a
    decimal literal.  [None] stands for [ValueError]. *)
Definition py_int (s : string) : option Z :=
  match s with
  | String "-" r => option_map Z.opp (literal r)
  | String "+" r => literal r
  | _ => literal s
  end.

(** [needle in hay] on strings. *)
Fixpoint contains (needle hay : string) : bool :=
  prefix needle hay
  || match hay with
     | EmptyString => false
     | String _ r => contains needle r
     end.

(** Truth value of a string: empty is false. *)
Definition truthy (s : string) : bool :=
  match s with EmptyString => false | _ => true end.

End PyStr.
Import PyStr.

(** ** Python lists of integers *)

Module PyList.

(** [x in l] *)
Definition py_in (x : Z) (l : list Z) : bool := existsb (Z.eqb x) l.

(** [l.append(x)] *)
Definition append (x : Z) (l : list Z) : list Z := l ++ [x].

(** [l.remove(x)]: drops the first occurrence; [None] stands for the
    [ValueError] of an absent element. *)
Fixpoint remove (x : Z) (l : list Z) : option (list Z) :=
  match l with
  | [] => None
  | y :: r =>
      if Z.eqb y x then Some r
      else option_map (cons y) (remove x r)
  end.

(** [l[i]]; [None] stands for [IndexError]. *)
Definition item (l : list string) (i : nat) : option string := nth_error l i.

End PyList.

(** ** Python dicts from strings to strings *)

Module PyDict.

Definition dict := list (string * string).

(** [d.get(k)] *)
Fixpoint get (k : string) (d : dict) : option string :=
  match d with
  | [] => None
  | (k', v) :: r => if String.eqb k' k then Some v else get k r
  end.

(** [k in d] *)
Definition mem (k : string) (d : dict) : bool :=
  match get k d with Some _ => true | None => false end.

(** [d[k] = v] *)
Fixpoint set (k v : string) (d : dict) : dict :=
  match d with
  | [] => [(k, v)]
  | (k', v') :: r =>
      if String.eqb k' k then (k', v) :: r else (k', v') :: set k v r
  end.

(** [del d[k]]; [None] stands for the [KeyError] of an absent key. *)
Fixpoint del (k : string) (d : dict) : option dict :=
  match d with
  | [] => None
  | (k', v') :: r =>
      if String.eqb k' k then Some r
      else option_map (cons (k', v')) (del k r)
  end.

(** [d.items()] *)
Definition items (d : dict) : list (string * string) := d.

End PyDict.

(** ** The bot's state, its observable events and the handler monad *)

(** The part of [telegram.Update] the handlers read. *)
Record Update := {
  effective_user_id : Z;      (* update.effective_user.id *)
  effective_chat_id : Z;      (* update.effective_chat.id *)
  message_id : Z;             (* update.message.message_id *)
  message_text : string       (* update.message.text *)
}.

(** The module-level globals. *)
Record State := {
  ADMINS : list Z;
  MODERATORS : list Z;
  COMMANDS : PyDict.dict
}.

Inductive Json :=
| JList (l : list Z)
| JDict (d : PyDict.dict).

Inductive Level := INFO | WARNING.

(** What a handler does to the outside world, in order. *)
Inductive Event :=
| reply_text (text : string)
| send_message (chat_id : Z) (text : string) (parse_mode : string)
| delete_message (chat_id : Z) (msg_id : Z)
| json_dump (file : string) (obj : Json)
| logger (lvl : Level) (msg : string).

Inductive exn := ValueError | IndexError | KeyError.

Inductive result (A : Type) :=
| Returned (a : A)
| Raised (e : exn).
Arguments Returned {A} a.
Arguments Raised {A} e.

Definition M (A : Type) : Type := State -> result A * State * list Event.

Definition ret {A} (a : A) : M A := fun st => (Returned a, st, []).

Definition bind {A B} (m : M A) (k : A -> M B) : M B := fun st =>
  match m st with
  | (Returned a, st1, t1) =>
      match k a st1 with
      | (r, st2, t2) => (r, st2, (t1 ++ t2)%list)
      end
  | (Raised e, st1, t1) => (Raised e, st1, t1)
  end.

Declare Scope bot_scope.
Delimit Scope bot_scope with bot.
Notation "x <- m ;; k" := (bind m (fun x => k))
  (at level 61, m at next level, right associativity) : bot_scope.
Notation "m ;; k" := (bind m (fun _ => k))
  (at level 61, right associativity) : bot_scope.
Open Scope bot_scope.

Definition raise {A} (e : exn) : M A := fun st => (Raised e, st, []).
Definition gets {A} (f : State -> A) : M A := fun st => (Returned (f st), st, []).
Definition modify (f : State -> State) : M unit := fun st => (Returned tt, f st, []).
Definition emit (e : Event) : M unit := fun st => (Returned tt, st, [e]).

(** An operation that raises [e] when it has no value. *)
Definition or_raise {A} (e : exn) (o : option A) : M A :=
  match o with Some a => ret a | None => raise e end.

Definition set_ADMINS (l : list Z) (st : State) : State :=
  {| ADMINS := l; MODERATORS := MODERATORS st; COMMANDS := COMMANDS st |}.
Definition set_MODERATORS (l : list Z) (st : State) : State :=
  {| ADMINS := ADMINS st; MODERATORS := l; COMMANDS := COMMANDS st |}.
Definition set_COMMANDS (d : PyDict.dict) (st : State) : State :=
  {| ADMINS := ADMINS st; MODERATORS := MODERATORS st; COMMANDS := d |}.

(** [with open(file, 'w') as f: json.dump(X, f, ...)] for each global. *)
Definition dump_ADMINS : M unit :=
  l <- gets ADMINS ;; emit (json_dump "admins.json" (JList l)).
Definition dump_MODERATORS : M unit :=
  l <- gets MODERATORS ;; emit (json_dump "mods.json" (JList l)).
Definition dump_COMMANDS : M unit :=
  d <- gets COMMANDS ;; emit (json_dump "commands.json" (JDict d)).

(** ** The handlers of [bot.py] *)

(** [a or b] on strings. *)
Definition py_or (a b : string) : string := if truthy a then a else b.

(** The two membership checks read the globals; a handler calls them
    through [gets]. *)
Definition is_admin (user_id : Z) (st : State) : bool :=
  PyList.py_in user_id (ADMINS st).

Definition is_moderator (user_id : Z) (st : State) : bool :=
  PyList.py_in user_id (MODERATORS st).

Definition handle_command (update : Update) : M unit :=
  let user_id := effective_user_id update in
  command <- or_raise IndexError (PyList.item (split (message_text update)) 0) ;;
  ok <- gets (fun st => is_admin user_id st || is_moderator user_id st) ;;
  if ok : bool then
    response <- gets (fun st => PyDict.get command (COMMANDS st)) ;;
    match response with
    | Some text =>
        if truthy text then
          emit (send_message (effective_chat_id update) text "Markdown") ;;
          emit (delete_message (effective_chat_id update) (message_id update)) ;;
          emit (logger INFO
                  ("Command " ++ command ++ " executed by user " ++ py_str user_id))
        else ret tt
    | None => ret tt
    end
  else
    emit (logger WARNING
            ("Unauthorized command attempt by user " ++ py_str user_id)).

Definition add_command (update : Update) (args : list string) : M unit :=
  let user_id := effective_user_id update in
  a <- gets (is_admin user_id) ;;
  if negb a then
    emit (logger WARNING
            ("Unauthorized add_command attempt by user " ++ py_str user_id))
  else if (List.length args <? 2)%nat then
    emit (reply_text "Usage: /add_command <command> <response>")
  else
    command <- or_raise IndexError (PyList.item args 0) ;;
    let response := join " " (skipn 1 args) in
    modify (fun st => set_COMMANDS (PyDict.set command response (COMMANDS st)) st) ;;
    dump_COMMANDS ;;
    emit (reply_text ("Command " ++ command ++ " added.")) ;;
    emit (logger INFO
            ("Command " ++ command ++ " added by admin " ++ py_str user_id)).

Definition remove_command (update : Update) (args : list string) : M unit :=
  let user_id := effective_user_id update in
  a <- gets (is_admin user_id) ;;
  if negb a then
    emit (logger WARNING
            ("Unauthorized remove_command attempt by user " ++ py_str user_id))
  else if negb (List.length args =? 1)%nat then
    emit (reply_text "Usage: /remove_command <command>")
  else
    command <- or_raise IndexError (PyList.item args 0) ;;
    present <- gets (fun st => PyDict.mem command (COMMANDS st)) ;;
    if present : bool then
      d <- gets COMMANDS ;;
      d' <- or_raise KeyError (PyDict.del command d) ;;
      modify (set_COMMANDS d') ;;
      dump_COMMANDS ;;
      emit (reply_text ("Command " ++ command ++ " removed.")) ;;
      emit (logger INFO
              ("Command " ++ command ++ " removed by admin " ++ py_str user_id))
    else
      emit (reply_text ("Command " ++ command ++ " does not exist.")).

(** The four fixed lines of the help text. *)
Definition builtin_help : list string :=
  [ "/add_command <command> <response> - Add a new command (Admins only)";
    "/remove_command <command> - Remove an existing command (Admins only)";
    "/assign <admin|moderator> <add|remove> <user_id> - Assign roles (Admins only)";
    "/help - Show this help message" ].

Definition custom_line (e : string * string) : string :=
  fst e ++ " - " ++ snd e.

Definition list_commands (update : Update) : M unit :=
  let user_id := effective_user_id update in
  ok <- gets (fun st => is_admin user_id st || is_moderator user_id st) ;;
  if ok : bool then
    d <- gets COMMANDS ;;
    let custom :=
      "Custom Commands:" ++ nl ++ join nl (map custom_line (PyDict.items d)) in
    let commands_list := join nl (builtin_help ++ [custom])%list in
    emit (reply_text ("Available commands:" ++ nl ++ commands_list)) ;;
    emit (logger INFO ("Command list requested by user " ++ py_str user_id))
  else
    emit (logger WARNING
            ("Unauthorized help command attempt by user " ++ py_str user_id)).

Definition view_roles (update : Update) : M unit :=
  let user_id := effective_user_id update in
  a <- gets (is_admin user_id) ;;
  if a : bool then
    admins <- gets ADMINS ;;
    mods <- gets MODERATORS ;;
    let admins_list := py_or (join nl (map py_str admins)) "No admins." in
    let moderators_list := py_or (join nl (map py_str mods)) "No moderators." in
    let response :=
      "Admins:" ++ nl ++ admins_list ++ nl ++ nl
      ++ "Moderators:" ++ nl ++ moderators_list in
    emit (reply_text response) ;;
    emit (logger INFO ("Roles list requested by user " ++ py_str user_id))
  else
    emit (logger WARNING
            ("Unauthorized view_roles command attempt by user " ++ py_str user_id)).

(** The two rejection texts hold double quotes around the valid choices. *)
Definition dq : string := String (ascii_of_nat 34) EmptyString.

Definition invalid_action : string :=
  "Invalid action. Use " ++ dq ++ "add" ++ dq ++ " or " ++ dq ++ "remove" ++ dq ++ ".".

Definition invalid_role : string :=
  "Invalid role. Use " ++ dq ++ "admin" ++ dq ++ " or " ++ dq ++ "moderator" ++ dq ++ ".".

Definition assign_role (update : Update) (args : list string) : M unit :=
  let user_id := effective_user_id update in
  a <- gets (is_admin user_id) ;;
  if negb a then
    emit (logger WARNING
            ("Unauthorized assign_role attempt by user " ++ py_str user_id))
  else if negb (List.length args =? 3)%nat then
    emit (reply_text "Usage: /assign <admin|moderator> <add|remove> <user_id>")
  else
    role <- or_raise IndexError (PyList.item args 0) ;;
    action <- or_raise IndexError (PyList.item args 1) ;;
    arg2 <- or_raise IndexError (PyList.item args 2) ;;
    target_id <- or_raise ValueError (py_int arg2) ;;
    if String.eqb role "admin" then
      if String.eqb action "add" then
        present <- gets (fun st => PyList.py_in target_id (ADMINS st)) ;;
        if negb present then
          modify (fun st => set_ADMINS (PyList.append target_id (ADMINS st)) st) ;;
          dump_ADMINS ;;
          emit (reply_text ("User " ++ py_str target_id ++ " added as admin.")) ;;
          emit (logger INFO
                  ("User " ++ py_str target_id ++ " added as admin by "
                   ++ py_str user_id))
        else
          emit (reply_text ("User " ++ py_str target_id ++ " is already an admin."))
      else if String.eqb action "remove" then
        present <- gets (fun st => PyList.py_in target_id (ADMINS st)) ;;
        if present : bool then
          l <- gets ADMINS ;;
          l' <- or_raise ValueError (PyList.remove target_id l) ;;
          modify (set_ADMINS l') ;;
          dump_ADMINS ;;
          emit (reply_text ("User " ++ py_str target_id ++ " removed from admins.")) ;;
          emit (logger INFO
                  ("User " ++ py_str target_id ++ " removed from admins by "
                   ++ py_str user_id))
        else
          emit (reply_text ("User " ++ py_str target_id ++ " is not an admin."))
      else
        emit (reply_text invalid_action)
    else if String.eqb role "moderator" then
      if String.eqb action "add" then
        present <- gets (fun st => PyList.py_in target_id (MODERATORS st)) ;;
        if negb present then
          modify (fun st => set_MODERATORS (PyList.append target_id (MODERATORS st)) st) ;;
          dump_MODERATORS ;;
          emit (reply_text ("User " ++ py_str target_id ++ " added as moderator.")) ;;
          emit (logger INFO
                  ("User " ++ py_str target_id ++ " added as moderator by "
                   ++ py_str user_id))
        else
          emit (reply_text ("User " ++ py_str target_id ++ " is already a moderator."))
      else if String.eqb action "remove" then
        present <- gets (fun st => PyList.py_in target_id (MODERATORS st)) ;;
        if present : bool then
          l <- gets MODERATORS ;;
          l' <- or_raise ValueError (PyList.remove target_id l) ;;
          modify (set_MODERATORS l') ;;
          dump_MODERATORS ;;
          emit (reply_text ("User " ++ py_str target_id ++ " removed from moderators.")) ;;
          emit (logger INFO
                  ("User " ++ py_str target_id ++ " removed from moderators by "
                   ++ py_str user_id))
        else
          emit (reply_text ("User " ++ py_str target_id ++ " is not a moderator."))
      else
        emit (reply_text invalid_action)
    else
      emit (reply_text invalid_role).

(** ** Observations on an outcome *)

Definition is_logger (e : Event) : bool :=
  match e with logger _ _ => true | _ => false end.

(** A message to the sender: a reply or a message sent to the chat. *)
Definition is_reply (e : Event) : bool :=
  match e with reply_text _ | send_message _ _ _ => true | _ => false end.

Definition is_persist (e : Event) : bool :=
  match e with json_dump _ _ => true | _ => false end.

(** A silent denial from state [st]: the globals are as before and the
    trace holds log records only. *)
Definition silent (st : State) (o : result unit * State * list Event) : Prop :=
  snd (fst o) = st /\ forallb is_logger (snd o) = true.

(** Sample data for the closed instances below. *)
Module Sample.
Definition st : State :=
  {| ADMINS := [111%Z];
     MODERATORS := [222%Z];
     COMMANDS := [("/greet", "Hello there")] |}.

Definition upd (uid : Z) (text : string) : Update :=
  {| effective_user_id := uid; effective_chat_id := 5%Z;
     message_id := 7%Z; message_text := text |}.
End Sample.

(** ** Texts and event lists the statements refer to *)

(** The usage reply of [add_command]. *)
Definition add_usage : string := "Usage: /add_command <command> <response>".

(** A text without white space. *)
Fixpoint no_space (s : string) : bool :=
  match s with
  | EmptyString => true
  | String c r => negb (isspace c) && no_space r
  end.

(** What an authorized sender's custom command [command] produces. *)
Definition custom_events (update : Update) (command : string) (st : State)
  : list Event :=
  match PyDict.get command (COMMANDS st) with
  | Some text =>
      if truthy text then
        [send_message (effective_chat_id update) text "Markdown";
         delete_message (effective_chat_id update) (message_id update);
         logger INFO
           ("Command " ++ command ++ " executed by user "
            ++ py_str (effective_user_id update))]
      else []
  | None => []
  end.

(** The reply of [list_commands] for a table [d]. *)
Definition help_text (d : PyDict.dict) : string :=
  let custom := "Custom Commands:" ++ nl ++ join nl (map custom_line d) in
  "Available commands:" ++ nl ++ join nl (builtin_help ++ [custom])%list.

(** ** Calls and sequences of calls *)

(** One invocation of a handler, with the update and, for the command
    handlers, [context.args]. *)
Inductive Call :=
| HandleCommand (update : Update)
| AddCommand (update : Update) (args : list string)
| RemoveCommand (update : Update) (args : list string)
| ListCommands (update : Update)
| ViewRoles (update : Update)
| AssignRole (update : Update) (args : list string).

Definition handler (c : Call) : M unit :=
  match c with
  | HandleCommand update => handle_command update
  | AddCommand update args => add_command update args
  | RemoveCommand update args => remove_command update args
  | ListCommands update => list_commands update
  | ViewRoles update => view_roles update
  | AssignRole update args => assign_role update args
  end.

Definition caller (c : Call) : Z :=
  match c with
  | HandleCommand update | ListCommands update | ViewRoles update
  | AddCommand update _ | RemoveCommand update _ | AssignRole update _ =>
      effective_user_id update
  end.

(** The three parts of an outcome. *)
Definition result_of {A} (o : result A * State * list Event) : result A :=
  fst (fst o).
Definition state_of {A} (o : result A * State * list Event) : State :=
  snd (fst o).
Definition trace_of {A} (o : result A * State * list Event) : list Event :=
  snd o.

(** Handlers run one after another on the globals; a handler that raised
    leaves the globals as it had them and the next one runs. *)
Fixpoint serve (calls : list Call) (st : State) : State * list Event :=
  match calls with
  | [] => (st, [])
  | c :: rest =>
      let o := handler c st in
      let o' := serve rest (state_of o) in
      (fst o', (trace_of o ++ snd o')%list)
  end.

(** No identity is listed twice in a role list and no token twice in the
    table. *)
Definition well_formed (st : State) : Prop :=
  NoDup (ADMINS st) /\ NoDup (MODERATORS st) /\ NoDup (map fst (COMMANDS st)).

(** A file write that carries the current content of the global it
    belongs to. *)
Definition in_sync (st : State) (e : Event) : Prop :=
  match e with
  | json_dump file obj =>
      (file = "admins.json" /\ obj = JList (ADMINS st))
      \/ (file = "mods.json" /\ obj = JList (MODERATORS st))
      \/ (file = "commands.json" /\ obj = JDict (COMMANDS st))
  | _ => True
  end.


(** The value of a decimal numeral read from the left, [acc] being the
    value of the digits already read. *)
Fixpoint uint_val (acc : Z) (d : Decimal.uint) : Z :=
  match d with
  | Decimal.Nil => acc
  | Decimal.D0 d => uint_val (10 * acc + 0) d
  | Decimal.D1 d => uint_val (10 * acc + 1) d
  | Decimal.D2 d => uint_val (10 * acc + 2) d
  | Decimal.D3 d => uint_val (10 * acc + 3) d
  | Decimal.D4 d => uint_val (10 * acc + 4) d
  | Decimal.D5 d => uint_val (10 * acc + 5) d
  | Decimal.D6 d => uint_val (10 * acc + 6) d
  | Decimal.D7 d => uint_val (10 * acc + 7) d
  | Decimal.D8 d => uint_val (10 * acc + 8) d
  | Decimal.D9 d => uint_val (10 * acc + 9) d
  end.

(** The reply of [view_roles] for the two role lists. *)
Definition roles_text (admins mods : list Z) : string :=
  "Admins:" ++ nl ++ join nl (map py_str admins) ++ nl ++ nl
  ++ "Moderators:" ++ nl
  ++ match mods with
     | [] => "No moderators."
     | _ :: _ => join nl (map py_str mods)
     end.

(** ** Facts about the containers *)

Section DictFacts.
Import PyDict.
Variables (k v : string).

Lemma get_set_same (d : dict) : get k (set k v d) = Some v.
Proof.
  induction d as [|[k' v'] d IH]; simpl.
  - now rewrite String.eqb_refl.
  - destruct (String.eqb k' k) eqn:E; simpl; rewrite E; auto.
Qed.

Lemma get_set_other (k0 : string) (d : dict) :
  k0 <> k -> get k0 (set k v d) = get k0 d.
Proof.
  intros Hne. induction d as [|[k' v'] d IH]; simpl.
  - destruct (String.eqb k k0) eqn:E; auto.
    apply String.eqb_eq in E. congruence.
  - destruct (String.eqb k' k) eqn:E; simpl.
    + apply String.eqb_eq in E. subst k'.
      destruct (String.eqb k k0) eqn:E0; auto.
      apply String.eqb_eq in E0. congruence.
    + now rewrite IH.
Qed.

(** A store keeps the order of the keys: an existing key stays where it
    was, a new one goes last. *)
Lemma keys_set (d : dict) :
  map fst (set k v d) = if mem k d then map fst d else (map fst d ++ [k])%list.
Proof.
  unfold mem. induction d as [|[k' v'] d IH]; simpl; auto.
  destruct (String.eqb k' k) eqn:E; simpl; auto.
  rewrite IH. now destruct (get k d).
Qed.
End DictFacts.

Section ListFacts.
Import PyList.

Lemma py_in_spec (x : Z) (l : list Z) : py_in x l = true <-> In x l.
Proof.
  unfold py_in. rewrite existsb_exists. split.
  - intros [y [Hy E]]. apply Z.eqb_eq in E. now subst.
  - intros H. exists x. split; auto. apply Z.eqb_refl.
Qed.
End ListFacts.

Section TraceFacts.
(** A trace of log records holds no message to the sender and no file
    write. *)
Lemma logs_only_no_reply (t : list Event) :
  forallb is_logger t = true ->
  filter is_reply t = [] /\ filter is_persist t = [].
Proof.
  induction t as [|e t IH]; simpl; [auto|].
  intros H. apply andb_prop in H as [He Ht].
  destruct e; try discriminate. simpl. auto.
Qed.
End TraceFacts.

(** ** Running a handler *)

Ltac run :=
  cbv beta iota delta
    [bind gets modify emit ret raise or_raise
     dump_ADMINS dump_MODERATORS dump_COMMANDS];
  cbn [fst snd negb app nth_error PyList.item].

Ltac run_with H := run; rewrite ?H; run.

Create HintDb bot.
#[export] Hint Resolve get_set_same get_set_other : bot.

(** ** Authorization *)

Section Denial.
Variables (st : State) (update : Update).
Abbreviation user_id := (effective_user_id update).

Lemma add_command_denied (args : list string) :
  is_admin user_id st = false ->
  add_command update args st
    = (Returned tt, st,
       [logger WARNING
          ("Unauthorized add_command attempt by user " ++ py_str user_id)]).
Proof. intros H. unfold add_command. run_with H. reflexivity. Qed.

Lemma remove_command_denied (args : list string) :
  is_admin user_id st = false ->
  remove_command update args st
    = (Returned tt, st,
       [logger WARNING
          ("Unauthorized remove_command attempt by user " ++ py_str user_id)]).
Proof. intros H. unfold remove_command. run_with H. reflexivity. Qed.

Lemma assign_role_denied (args : list string) :
  is_admin user_id st = false ->
  assign_role update args st
    = (Returned tt, st,
       [logger WARNING
          ("Unauthorized assign_role attempt by user " ++ py_str user_id)]).
Proof. intros H. unfold assign_role. run_with H. reflexivity. Qed.

Lemma view_roles_denied :
  is_admin user_id st = false ->
  view_roles update st
    = (Returned tt, st,
       [logger WARNING
          ("Unauthorized view_roles command attempt by user "
           ++ py_str user_id)]).
Proof. intros H. unfold view_roles. run_with H. reflexivity. Qed.

Lemma list_commands_denied :
  is_admin user_id st = false -> is_moderator user_id st = false ->
  list_commands update st
    = (Returned tt, st,
       [logger WARNING
          ("Unauthorized help command attempt by user " ++ py_str user_id)]).
Proof.
  intros Ha Hm. unfold list_commands. run. rewrite Ha, Hm. reflexivity.
Qed.

(** An unauthorized sender of a custom command gets the WARNING record
    when the text has a first token, and [IndexError] from
    [split()[0]] when it has none. *)
Lemma handle_command_denied :
  is_admin user_id st = false -> is_moderator user_id st = false ->
  handle_command update st
    = match split (message_text update) with
      | [] => (Raised IndexError, st, [])
      | _ :: _ =>
          (Returned tt, st,
           [logger WARNING
              ("Unauthorized command attempt by user " ++ py_str user_id)])
      end.
Proof.
  intros Ha Hm. unfold handle_command, PyList.item.
  destruct (split (message_text update)) as [|tok rest]; run.
  - reflexivity.
  - rewrite Ha, Hm. reflexivity.
Qed.

(** C9: for a sender who is not an admin, [add_command],
    [remove_command] and [assign_role] check the role before they look
    at the arguments: whatever the argument list (wrong count, malformed
    identity), the handler returns normally with the globals as they
    were and one WARNING log record; no usage reply is sent. *)
Theorem admin_only_auth_before_validation (args : list string) :
  is_admin user_id st = false ->
  add_command update args st
    = (Returned tt, st,
       [logger WARNING
          ("Unauthorized add_command attempt by user " ++ py_str user_id)])
  /\ remove_command update args st
    = (Returned tt, st,
       [logger WARNING
          ("Unauthorized remove_command attempt by user " ++ py_str user_id)])
  /\ assign_role update args st
    = (Returned tt, st,
       [logger WARNING
          ("Unauthorized assign_role attempt by user " ++ py_str user_id)]).
Proof.
  intros H. repeat split.
  - now apply add_command_denied.
  - now apply remove_command_denied.
  - now apply assign_role_denied.
Qed.

(** C7: a sender who fails the required tier gets no reply and changes
    nothing.  For the admin-only handlers ([add_command],
    [remove_command], [assign_role], [view_roles]) a sender who is not an
    admin, and for [list_commands] and the custom-command path
    [handle_command] a sender who is neither admin nor moderator, leaves
    the globals unchanged and produces log records only (no
    [reply_text], [send_message], [delete_message] or file write). *)
Theorem denial_is_silent (args : list string) :
  is_admin user_id st = false ->
  silent st (add_command update args st)
  /\ silent st (remove_command update args st)
  /\ silent st (assign_role update args st)
  /\ silent st (view_roles update st)
  /\ (is_moderator user_id st = false ->
      silent st (list_commands update st)
      /\ silent st (handle_command update st)).
Proof.
  intros Ha.
  rewrite (add_command_denied args Ha), (remove_command_denied args Ha),
    (assign_role_denied args Ha), (view_roles_denied Ha).
  repeat split; try reflexivity;
    rewrite ?(list_commands_denied Ha H), ?(handle_command_denied Ha H);
    try reflexivity;
    destruct (split (message_text update)); reflexivity.
Qed.
End Denial.

(** ** The command table *)

Section CommandTable.
Variables (st : State) (update : Update).
Abbreviation sender := (effective_user_id update).
Hypothesis admin : is_admin sender st = true.

(** What [add_command] does with a token and at least one more argument. *)
Lemma add_command_stores (token arg1 : string) (rest : list string) :
  let response := join " " (arg1 :: rest) in
  let table := PyDict.set token response (COMMANDS st) in
  add_command update (token :: arg1 :: rest) st
    = (Returned tt, set_COMMANDS table st,
       [json_dump "commands.json" (JDict table);
        reply_text ("Command " ++ token ++ " added.");
        logger INFO ("Command " ++ token ++ " added by admin " ++ py_str sender)]).
Proof.
  intros response table. unfold add_command. run_with admin. reflexivity.
Qed.

Lemma add_command_usage (args : list string) :
  (List.length args < 2)%nat ->
  add_command update args st = (Returned tt, st, [reply_text add_usage]).
Proof.
  intros Hlen. unfold add_command. run_with admin.
  destruct args as [|a0 [|a1 r]]; simpl in *; try reflexivity; lia.
Qed.

(** C3: [add_command] by an admin.  With fewer than two arguments it
    replies with the usage text and changes nothing.  With two or more it
    stores, under the first argument, the remaining arguments joined with
    single spaces, writes the table to [commands.json] and replies
    [Command <token> added.]; whether the token was in the table before
    makes no difference to the reply, the stored value is the new one and
    every other token keeps its response. *)
Theorem add_command_upsert (args : list string) :
  ((List.length args < 2)%nat ->
   add_command update args st = (Returned tt, st, [reply_text add_usage]))
  /\ (forall token arg1 rest,
        args = token :: arg1 :: rest ->
        let response := join " " (arg1 :: rest) in
        let table := PyDict.set token response (COMMANDS st) in
        add_command update args st
          = (Returned tt, set_COMMANDS table st,
             [json_dump "commands.json" (JDict table);
              reply_text ("Command " ++ token ++ " added.");
              logger INFO
                ("Command " ++ token ++ " added by admin " ++ py_str sender)])
        /\ PyDict.get token table = Some response
        /\ forall other, other <> token ->
             PyDict.get other table = PyDict.get other (COMMANDS st)).
Proof.
  split.
  - apply add_command_usage.
  - intros token arg1 rest -> response table. repeat split.
    + apply add_command_stores.
    + subst table. auto with bot.
    + subst table. auto with bot.
Qed.

(** C8: read-your-write.  After [add_command] has stored a response under
    a token, [COMMANDS.get(token)] on the resulting table is that response;
    at the level of the dict, a store followed by a lookup of the same key
    returns the stored value. *)
Theorem add_then_lookup (token arg1 : string) (rest : list string) :
  (forall (d : PyDict.dict) (response : string),
     PyDict.get token (PyDict.set token response d) = Some response)
  /\ match add_command update (token :: arg1 :: rest) st with
     | (r, st', _) =>
         r = Returned tt
         /\ PyDict.get token (COMMANDS st') = Some (join " " (arg1 :: rest))
     end.
Proof.
  split.
  - intros d response. apply get_set_same.
  - rewrite add_command_stores. split; [reflexivity|]. apply get_set_same.
Qed.

(** C6: [remove_command] by an admin with one argument that is not a key
    of the table replies [Command <token> does not exist.], leaves the
    globals as they were and writes no file. *)
Theorem remove_unknown_command (token : string) :
  PyDict.mem token (COMMANDS st) = false ->
  remove_command update [token] st
    = (Returned tt, st,
       [reply_text ("Command " ++ token ++ " does not exist.")]).
Proof.
  intros Habs. unfold remove_command. run_with admin.
  cbn [List.length Nat.eqb]. run. rewrite Habs. reflexivity.
Qed.

End CommandTable.

(** ** The role registry *)

Section Roles.
Variables (st : State) (update : Update).
Hypothesis admin : is_admin (effective_user_id update) st = true.

Variables (arg2 : string) (target : Z).
Hypothesis parsed : py_int arg2 = Some target.

Ltac assign :=
  unfold assign_role; run_with admin;
  cbn [List.length Nat.eqb]; run; rewrite parsed; run;
  cbn [String.eqb Ascii.eqb Bool.eqb]; run.

Lemma remove_absent_admin :
  PyList.py_in target (ADMINS st) = false ->
  assign_role update ["admin"; "remove"; arg2] st
    = (Returned tt, st,
       [reply_text ("User " ++ py_str target ++ " is not an admin.")]).
Proof. intros H. assign. rewrite H. reflexivity. Qed.

Lemma remove_absent_moderator :
  PyList.py_in target (MODERATORS st) = false ->
  assign_role update ["moderator"; "remove"; arg2] st
    = (Returned tt, st,
       [reply_text ("User " ++ py_str target ++ " is not a moderator.")]).
Proof. intros H. assign. rewrite H. reflexivity. Qed.

Lemma add_present_admin :
  PyList.py_in target (ADMINS st) = true ->
  assign_role update ["admin"; "add"; arg2] st
    = (Returned tt, st,
       [reply_text ("User " ++ py_str target ++ " is already an admin.")]).
Proof. intros H. assign. rewrite H. reflexivity. Qed.

Lemma add_present_moderator :
  PyList.py_in target (MODERATORS st) = true ->
  assign_role update ["moderator"; "add"; arg2] st
    = (Returned tt, st,
       [reply_text ("User " ++ py_str target ++ " is already a moderator.")]).
Proof. intros H. assign. rewrite H. reflexivity. Qed.

(** With a well-formed identity, a role other than [admin] and
    [moderator] is rejected by a reply that names the two roles, and an
    action other than [add] and [remove] by one that names the two
    actions; the globals stay as they were. *)
Lemma invalid_role_rejected (role action : string) :
  role <> "admin" -> role <> "moderator" ->
  assign_role update [role; action; arg2] st
    = (Returned tt, st, [reply_text invalid_role]).
Proof.
  intros Ha Hm. apply String.eqb_neq in Ha, Hm.
  unfold assign_role. run_with admin.
  cbn [List.length Nat.eqb]. run. rewrite parsed. run.
  rewrite Ha, Hm. reflexivity.
Qed.

Lemma invalid_action_rejected (role action : string) :
  role = "admin" \/ role = "moderator" ->
  action <> "add" -> action <> "remove" ->
  assign_role update [role; action; arg2] st
    = (Returned tt, st, [reply_text invalid_action]).
Proof.
  intros Hr Ha Hm. apply String.eqb_neq in Ha, Hm.
  unfold assign_role. run_with admin.
  cbn [List.length Nat.eqb]. run. rewrite parsed. run.
  rewrite Ha, Hm. destruct Hr as [-> | ->]; reflexivity.
Qed.

(** C4: removing a role from a target that does not hold it.  For an
    admin's [/assign admin remove <id>] with the identity not in [ADMINS],
    and for [/assign moderator remove <id>] with the identity not in
    [MODERATORS], the handler returns with all globals unchanged, writes
    no file and replies [User <id> is not an admin.] (resp. [is not a
    moderator.]). *)
Theorem remove_absent_role :
  (PyList.py_in target (ADMINS st) = false ->
   assign_role update ["admin"; "remove"; arg2] st
     = (Returned tt, st,
        [reply_text ("User " ++ py_str target ++ " is not an admin.")]))
  /\ (PyList.py_in target (MODERATORS st) = false ->
      assign_role update ["moderator"; "remove"; arg2] st
        = (Returned tt, st,
           [reply_text ("User " ++ py_str target ++ " is not a moderator.")])).
Proof. split; [apply remove_absent_admin | apply remove_absent_moderator]. Qed.

(** C5: adding a role to a target that already holds it is idempotent.
    For an admin's [/assign admin add <id>] with the identity in [ADMINS],
    and for [/assign moderator add <id>] with the identity in
    [MODERATORS], the handler returns with all globals unchanged, writes
    no file and replies [User <id> is already an admin.] (resp. [is
    already a moderator.]). *)
Theorem add_present_role :
  (PyList.py_in target (ADMINS st) = true ->
   assign_role update ["admin"; "add"; arg2] st
     = (Returned tt, st,
        [reply_text ("User " ++ py_str target ++ " is already an admin.")]))
  /\ (PyList.py_in target (MODERATORS st) = true ->
      assign_role update ["moderator"; "add"; arg2] st
        = (Returned tt, st,
           [reply_text ("User " ++ py_str target ++ " is already a moderator.")])).
Proof. split; [apply add_present_admin | apply add_present_moderator]. Qed.

End Roles.

(** ** The custom-command path *)

Lemma append_empty_r (s : string) : s ++ EmptyString = s.
Proof. induction s; simpl; congruence. Qed.

Lemma append_assoc (a b c : string) : (a ++ b) ++ c = a ++ (b ++ c).
Proof. induction a; simpl; congruence. Qed.

Lemma append_nonempty_r (a : string) (c : ascii) (b : string) :
  a ++ String c b <> EmptyString.
Proof. destruct a; discriminate. Qed.

(** Reading a token that ends at a white-space character. *)
Lemma split_from_token (tok : string) :
  forall cur c rest,
    no_space tok = true -> isspace c = true -> cur ++ tok <> EmptyString ->
    split_from cur (tok ++ String c rest)
      = (cur ++ tok) :: split_from EmptyString rest.
Proof.
  induction tok as [|a t IH]; intros cur c rest Hns Hc Hne.
  - rewrite append_empty_r in *. simpl. rewrite Hc.
    destruct cur; [congruence | reflexivity].
  - simpl in Hns. apply andb_prop in Hns as [Ha Ht].
    apply negb_true_iff in Ha. simpl. rewrite Ha.
    rewrite (IH (cur ++ String a EmptyString) c rest Ht Hc).
    + now rewrite append_assoc.
    + rewrite append_assoc. apply append_nonempty_r.
Qed.

(** Reading a token that ends with the text. *)
Lemma split_from_last (tok : string) :
  forall cur,
    no_space tok = true -> cur ++ tok <> EmptyString ->
    split_from cur tok = [cur ++ tok].
Proof.
  induction tok as [|a t IH]; intros cur Hns Hne.
  - rewrite append_empty_r in *. simpl. destruct cur; [congruence | reflexivity].
  - simpl in Hns. apply andb_prop in Hns as [Ha Ht].
    apply negb_true_iff in Ha. simpl. rewrite Ha.
    rewrite (IH (cur ++ String a EmptyString) Ht).
    + now rewrite append_assoc.
    + rewrite append_assoc. apply append_nonempty_r.
Qed.

(** The first token of [tok], and of [tok] followed by white space and
    any further text, is [tok]. *)
Lemma first_token_alone (tok : string) :
  no_space tok = true -> tok <> EmptyString ->
  PyList.item (split tok) 0 = Some tok.
Proof. intros Hns Hne. unfold split. now rewrite split_from_last. Qed.

Lemma first_token_trailing (tok : string) (c : ascii) (trailing : string) :
  no_space tok = true -> tok <> EmptyString -> isspace c = true ->
  PyList.item (split (tok ++ String c trailing)) 0 = Some tok.
Proof. intros Hns Hne Hc. unfold split. now rewrite split_from_token. Qed.

Section Custom.
Variables (st : State) (update : Update).
Hypothesis authorized :
  is_admin (effective_user_id update) st
  || is_moderator (effective_user_id update) st = true.

Lemma handle_command_runs (command : string) :
  PyList.item (split (message_text update)) 0 = Some command ->
  handle_command update st = (Returned tt, st, custom_events update command st).
Proof.
  intros Htok. unfold handle_command, custom_events.
  rewrite Htok. run. rewrite authorized. run.
  destruct (PyDict.get command (COMMANDS st)) as [text|]; [|reflexivity].
  destruct (truthy text); reflexivity.
Qed.

End Custom.

(** C10: for an authorized sender, [handle_command] looks at the first
    white-space-delimited token of the text only.  Its outcome is a
    function of that token (and of the sender, chat and message ids): the
    globals are unchanged and the events are those of [custom_events], so
    two messages with the same first token and the same ids have the same
    outcome, whatever follows the token; in particular the text [command]
    followed by white space and any trailing text behaves as [command]
    alone.  When the token is not a key of the table the trace is empty:
    nothing is sent and the message is not deleted. *)
Theorem custom_command_first_token
    (st : State) (update : Update) (command : string) :
  is_admin (effective_user_id update) st
  || is_moderator (effective_user_id update) st = true ->
  PyList.item (split (message_text update)) 0 = Some command ->
  handle_command update st = (Returned tt, st, custom_events update command st)
  /\ (forall other : Update,
        effective_user_id other = effective_user_id update ->
        effective_chat_id other = effective_chat_id update ->
        message_id other = message_id update ->
        PyList.item (split (message_text other)) 0 = Some command ->
        handle_command other st = handle_command update st)
  /\ (PyDict.get command (COMMANDS st) = None ->
      handle_command update st = (Returned tt, st, [])).
Proof.
  intros Hauth Htok.
  pose proof (handle_command_runs st update Hauth command Htok) as Hrun.
  repeat split.
  - exact Hrun.
  - intros other Hu Hc Hm Htok'. rewrite Hrun.
    rewrite (handle_command_runs st other) with (command := command); auto.
    + unfold custom_events. now rewrite Hu, Hc, Hm.
    + now rewrite Hu.
  - intros Habs. rewrite Hrun. unfold custom_events. now rewrite Habs.
Qed.

(** Trailing text after the token does not reach the lookup or the
    response. *)
Corollary trailing_text_ignored
    (st : State) (update : Update) (command : string)
    (c : ascii) (trailing : string) :
  is_admin (effective_user_id update) st
  || is_moderator (effective_user_id update) st = true ->
  no_space command = true -> command <> EmptyString -> isspace c = true ->
  message_text update = command ++ String c trailing ->
  handle_command update st = (Returned tt, st, custom_events update command st).
Proof.
  intros Hauth Hns Hne Hc Htext. apply handle_command_runs; auto.
  rewrite Htext. now apply first_token_trailing.
Qed.

(** ** The help text *)

(** For an admin or a moderator, [list_commands] replies with the four
    fixed lines followed by one line per entry of the table, in the
    table's order, and changes nothing. *)
Lemma list_commands_reply (st : State) (update : Update) :
  is_admin (effective_user_id update) st
  || is_moderator (effective_user_id update) st = true ->
  list_commands update st
    = (Returned tt, st,
       [reply_text (help_text (COMMANDS st));
        logger INFO
          ("Command list requested by user "
           ++ py_str (effective_user_id update))]).
Proof. intros Hauth. unfold list_commands. run. rewrite Hauth. reflexivity. Qed.

(** C2 (the code departs from the claim): the help reply describes four
    built-in commands, [/add_command], [/remove_command], [/assign] and
    [/help]; the fifth, [/view_roles], is not in it.  For admin 111 and
    the table holding [/greet], the reply is the seven lines below and
    the text [view_roles] does not occur in it. *)
Theorem help_omits_view_roles :
  exists text : string,
    list_commands (Sample.upd 111 "/help") Sample.st
      = (Returned tt, Sample.st,
         [reply_text text;
          logger INFO "Command list requested by user 111"])
    /\ text
       = join nl
           [ "Available commands:";
             "/add_command <command> <response> - Add a new command (Admins only)";
             "/remove_command <command> - Remove an existing command (Admins only)";
             "/assign <admin|moderator> <add|remove> <user_id> - Assign roles (Admins only)";
             "/help - Show this help message";
             "Custom Commands:";
             "/greet - Hello there" ]
    /\ contains "view_roles" text = false.
Proof.
  eexists. split; [|split].
  - rewrite list_commands_reply by reflexivity. reflexivity.
  - vm_compute. reflexivity.
  - vm_compute. reflexivity.
Qed.

(** ** A malformed identity *)

(** [int(context.args[2])] is evaluated before the role and the action are
    looked at: when it raises, the handler ends with [ValueError], nothing
    has been sent and nothing has changed. *)
Lemma malformed_identity_raises
    (st : State) (update : Update) (role action arg2 : string) :
  is_admin (effective_user_id update) st = true ->
  py_int arg2 = None ->
  assign_role update [role; action; arg2] st = (Raised ValueError, st, []).
Proof.
  intros Hadm Hbad. unfold assign_role. run_with Hadm.
  cbn [List.length Nat.eqb]. run. rewrite Hbad. reflexivity.
Qed.

(** C1 (the code departs from the claim): an admin's
    [/assign admin add abc] raises [ValueError] out of the handler with no
    reply at all, so the malformed identity is not answered as a usage
    error; with an invalid role as well ([/assign owner add abc]) the
    handler raises before it can send the rejection message. *)
Theorem malformed_identity_not_usage_error :
  assign_role (Sample.upd 111 "/assign admin add abc")
    ["admin"; "add"; "abc"] Sample.st
    = (Raised ValueError, Sample.st, [])
  /\ assign_role (Sample.upd 111 "/assign owner add abc")
       ["owner"; "add"; "abc"] Sample.st
     = (Raised ValueError, Sample.st, []).
Proof. split; vm_compute; reflexivity. Qed.

(** ** Closed instances *)

(** User 333 holds no role and sends [/assign admin add abc]: wrong
    argument count for [add_command] and [remove_command], a malformed
    identity for [assign_role]. *)
Lemma admin_only_auth_before_validation_witness :
  is_admin 333 Sample.st = false
  /\ (add_command (Sample.upd 333 "/assign admin add abc")
        ["admin"; "add"; "abc"] Sample.st
      = (Returned tt, Sample.st,
         [logger WARNING "Unauthorized add_command attempt by user 333"])
      /\ remove_command (Sample.upd 333 "/assign admin add abc")
           ["admin"; "add"; "abc"] Sample.st
         = (Returned tt, Sample.st,
            [logger WARNING "Unauthorized remove_command attempt by user 333"])
      /\ assign_role (Sample.upd 333 "/assign admin add abc")
           ["admin"; "add"; "abc"] Sample.st
         = (Returned tt, Sample.st,
            [logger WARNING "Unauthorized assign_role attempt by user 333"])).
Proof.
  split; [reflexivity|].
  apply (admin_only_auth_before_validation Sample.st
           (Sample.upd 333 "/assign admin add abc") ["admin"; "add"; "abc"]).
  reflexivity.
Defined.

Lemma denial_is_silent_witness :
  is_admin 333 Sample.st = false
  /\ is_moderator 333 Sample.st = false
  /\ silent Sample.st
       (add_command (Sample.upd 333 "/greet") ["/greet"; "Hi"] Sample.st)
  /\ silent Sample.st
       (remove_command (Sample.upd 333 "/greet") ["/greet"; "Hi"] Sample.st)
  /\ silent Sample.st
       (assign_role (Sample.upd 333 "/greet") ["/greet"; "Hi"] Sample.st)
  /\ silent Sample.st (view_roles (Sample.upd 333 "/greet") Sample.st)
  /\ silent Sample.st (list_commands (Sample.upd 333 "/greet") Sample.st)
  /\ silent Sample.st (handle_command (Sample.upd 333 "/greet") Sample.st).
Proof.
  destruct (denial_is_silent Sample.st (Sample.upd 333 "/greet")
              ["/greet"; "Hi"] eq_refl) as (H1 & H2 & H3 & H4 & H5).
  destruct (H5 eq_refl) as (H6 & H7).
  exact (conj eq_refl (conj eq_refl
           (conj H1 (conj H2 (conj H3 (conj H4 (conj H6 H7))))))).
Defined.

(** Admin 111 first sends [/add_command /greet] (usage), then
    [/add_command /greet Good day], which replaces the stored response. *)
Lemma add_command_upsert_witness :
  is_admin 111 Sample.st = true
  /\ add_command (Sample.upd 111 "/add_command /greet") ["/greet"] Sample.st
     = (Returned tt, Sample.st, [reply_text add_usage])
  /\ add_command (Sample.upd 111 "/add_command /greet Good day")
       ["/greet"; "Good"; "day"] Sample.st
     = (Returned tt,
        set_COMMANDS [("/greet", "Good day")] Sample.st,
        [json_dump "commands.json" (JDict [("/greet", "Good day")]);
         reply_text "Command /greet added.";
         logger INFO "Command /greet added by admin 111"])
  /\ PyDict.get "/greet" [("/greet", "Good day")] = Some "Good day".
Proof.
  split; [reflexivity|]. split.
  - apply (proj1 (add_command_upsert Sample.st
                    (Sample.upd 111 "/add_command /greet") eq_refl ["/greet"])).
    simpl. lia.
  - destruct (proj2 (add_command_upsert Sample.st
                       (Sample.upd 111 "/add_command /greet Good day")
                       eq_refl ["/greet"; "Good"; "day"])
                "/greet" "Good" ["day"] eq_refl) as (H1 & H2 & _).
    split; [exact H1 | exact H2].
Defined.

Lemma add_then_lookup_witness :
  is_admin 111 Sample.st = true
  /\ match add_command (Sample.upd 111 "/add_command !hi Hello you")
             ["!hi"; "Hello"; "you"] Sample.st with
     | (r, st', _) =>
         r = Returned tt /\ PyDict.get "!hi" (COMMANDS st') = Some "Hello you"
     end.
Proof.
  split; [reflexivity|].
  exact (proj2 (add_then_lookup Sample.st
                  (Sample.upd 111 "/add_command !hi Hello you") eq_refl
                  "!hi" "Hello" ["you"])).
Defined.

Lemma remove_unknown_command_witness :
  is_admin 111 Sample.st = true
  /\ PyDict.mem "/nope" (COMMANDS Sample.st) = false
  /\ remove_command (Sample.upd 111 "/remove_command /nope") ["/nope"] Sample.st
     = (Returned tt, Sample.st, [reply_text "Command /nope does not exist."]).
Proof.
  split; [reflexivity|]. split; [reflexivity|].
  apply (remove_unknown_command Sample.st
           (Sample.upd 111 "/remove_command /nope") eq_refl "/nope").
  reflexivity.
Defined.

(** [/assign admin remove 999] with 999 not an admin, and the same for
    the moderators. *)
Lemma remove_absent_role_witness :
  is_admin 111 Sample.st = true
  /\ py_int "999" = Some 999%Z
  /\ PyList.py_in 999 (ADMINS Sample.st) = false
  /\ PyList.py_in 999 (MODERATORS Sample.st) = false
  /\ assign_role (Sample.upd 111 "/assign admin remove 999")
       ["admin"; "remove"; "999"] Sample.st
     = (Returned tt, Sample.st, [reply_text "User 999 is not an admin."])
  /\ assign_role (Sample.upd 111 "/assign admin remove 999")
       ["moderator"; "remove"; "999"] Sample.st
     = (Returned tt, Sample.st, [reply_text "User 999 is not a moderator."]).
Proof.
  do 4 (split; [reflexivity|]).
  destruct (remove_absent_role Sample.st
              (Sample.upd 111 "/assign admin remove 999") eq_refl
              "999" 999%Z eq_refl) as (Ha & Hm).
  split; [apply Ha | apply Hm]; reflexivity.
Defined.

(** [/assign admin add 111] with 111 an admin, and
    [/assign moderator add 222] with 222 a moderator. *)
Lemma add_present_role_witness :
  is_admin 111 Sample.st = true
  /\ py_int "111" = Some 111%Z
  /\ py_int "222" = Some 222%Z
  /\ PyList.py_in 111 (ADMINS Sample.st) = true
  /\ PyList.py_in 222 (MODERATORS Sample.st) = true
  /\ assign_role (Sample.upd 111 "/assign admin add 111")
       ["admin"; "add"; "111"] Sample.st
     = (Returned tt, Sample.st, [reply_text "User 111 is already an admin."])
  /\ assign_role (Sample.upd 111 "/assign moderator add 222")
       ["moderator"; "add"; "222"] Sample.st
     = (Returned tt, Sample.st, [reply_text "User 222 is already a moderator."]).
Proof.
  do 5 (split; [reflexivity|]). split.
  - apply (proj1 (add_present_role Sample.st
                    (Sample.upd 111 "/assign admin add 111") eq_refl
                    "111" 111%Z eq_refl)).
    reflexivity.
  - apply (proj2 (add_present_role Sample.st
                    (Sample.upd 111 "/assign moderator add 222") eq_refl
                    "222" 222%Z eq_refl)).
    reflexivity.
Defined.

(** Moderator 222 sends [/greet] followed by more text, then [/nope]. *)
Lemma custom_command_first_token_witness :
  is_admin 222 Sample.st || is_moderator 222 Sample.st = true
  /\ PyList.item (split "/greet and some more text") 0 = Some "/greet"
  /\ handle_command (Sample.upd 222 "/greet and some more text") Sample.st
     = (Returned tt, Sample.st,
        [send_message 5 "Hello there" "Markdown";
         delete_message 5 7;
         logger INFO "Command /greet executed by user 222"])
  /\ handle_command (Sample.upd 222 "/greet") Sample.st
     = handle_command (Sample.upd 222 "/greet and some more text") Sample.st
  /\ handle_command (Sample.upd 222 "/nope and some more text") Sample.st
     = (Returned tt, Sample.st, []).
Proof.
  do 2 (split; [reflexivity|]).
  destruct (custom_command_first_token Sample.st
              (Sample.upd 222 "/greet and some more text") "/greet"
              eq_refl eq_refl) as (H1 & H2 & _).
  destruct (custom_command_first_token Sample.st
              (Sample.upd 222 "/nope and some more text") "/nope"
              eq_refl eq_refl) as (_ & _ & H3).
  split; [exact H1|]. split.
  - apply (H2 (Sample.upd 222 "/greet")); reflexivity.
  - apply H3. reflexivity.
Defined.

(** * Further properties of the handlers *)

(** ** More facts about the containers *)

Section RemoveFacts.
Import PyList.

Lemma py_in_false (x : Z) (l : list Z) : py_in x l = false <-> ~ In x l.
Proof.
  rewrite <- py_in_spec. destruct (py_in x l); split; congruence.
Qed.

Lemma py_in_app (x : Z) (l1 l2 : list Z) :
  py_in x (l1 ++ l2) = py_in x l1 || py_in x l2.
Proof. apply existsb_app. Qed.

Lemma py_in_append (x y : Z) (l : list Z) :
  py_in x (append y l) = py_in x l || Z.eqb x y.
Proof. unfold append. rewrite py_in_app. simpl. now rewrite orb_false_r. Qed.

(** A guarded [remove] does not raise. *)
Lemma remove_present (x : Z) (l : list Z) :
  py_in x l = true -> exists l', remove x l = Some l'.
Proof.
  induction l as [|y l IH]; simpl; [discriminate|].
  rewrite (Z.eqb_sym x y). destruct (Z.eqb y x); [eauto|].
  simpl. intros H. destruct (IH H) as [l' ->]. simpl. eauto.
Qed.

Lemma remove_In (x y : Z) (l l' : list Z) :
  remove x l = Some l' -> In y l' -> In y l.
Proof.
  revert l'. induction l as [|z l IH]; simpl; intros l'; [discriminate|].
  destruct (Z.eqb z x).
  - intros [= <-]. auto.
  - destruct (remove x l) as [r|]; simpl; [|discriminate].
    intros [= <-] [->|H]; eauto.
Qed.

Lemma remove_NoDup (x : Z) (l l' : list Z) :
  remove x l = Some l' -> NoDup l -> NoDup l'.
Proof.
  revert l'. induction l as [|z l IH]; simpl; intros l'; [discriminate|].
  intros H Hnd. inversion Hnd as [|? ? Hz Hl]; subst.
  destruct (Z.eqb z x).
  - now injection H as <-.
  - destruct (remove x l) as [r|] eqn:E; simpl in H; [|discriminate].
    injection H as <-. constructor; eauto using remove_In.
Qed.

(** Without duplicates, [remove] takes the element out and keeps the
    others. *)
Lemma remove_member (x y : Z) (l l' : list Z) :
  remove x l = Some l' -> NoDup l ->
  py_in y l' = py_in y l && negb (Z.eqb y x).
Proof.
  revert l'. induction l as [|z l IH]; simpl; intros l'; [discriminate|].
  intros H Hnd. inversion Hnd as [|? ? Hz Hl]; subst.
  destruct (Z.eqb z x) eqn:Ezx.
  - injection H as <-. apply Z.eqb_eq in Ezx. subst z.
    change (py_in y (x :: l)) with (Z.eqb y x || py_in y l).
    destruct (Z.eqb y x) eqn:Eyx; cbn [orb negb].
    + apply Z.eqb_eq in Eyx. subst y. rewrite andb_false_r.
      now apply py_in_false.
    + now rewrite andb_true_r.
  - destruct (remove x l) as [r|] eqn:E; simpl in H; [|discriminate].
    injection H as <-.
    change (py_in y (z :: r)) with (Z.eqb y z || py_in y r).
    change (py_in y (z :: l)) with (Z.eqb y z || py_in y l).
    rewrite (IH r eq_refl Hl).
    destruct (Z.eqb y z) eqn:Eyz; cbn [orb]; auto.
    apply Z.eqb_eq in Eyz. subst y. now rewrite Ezx.
Qed.

(** Removing what was just appended to a list that did not hold it gives
    the list back. *)
Lemma remove_append (x : Z) (l : list Z) :
  py_in x l = false -> remove x (append x l) = Some l.
Proof.
  unfold append. induction l as [|y l IH]; simpl.
  - now rewrite Z.eqb_refl.
  - rewrite (Z.eqb_sym x y). destruct (Z.eqb y x); simpl; [discriminate|].
    intros H. now rewrite (IH H).
Qed.

Lemma append_NoDup (x : Z) (l : list Z) :
  py_in x l = false -> NoDup l -> NoDup (append x l).
Proof.
  intros Hx Hl. apply py_in_false in Hx. unfold append.
  apply NoDup_app; auto.
  - constructor; [easy | constructor].
  - intros a Ha [<- | []]. auto.
Qed.
End RemoveFacts.

Section DelFacts.
Import PyDict.

Lemma mem_keys (k : string) (d : dict) : mem k d = true <-> In k (map fst d).
Proof.
  unfold mem. induction d as [|[k' v'] d IH]; simpl; [easy|].
  destruct (String.eqb k' k) eqn:E.
  - apply String.eqb_eq in E. tauto.
  - apply String.eqb_neq in E. rewrite IH. split; [auto | intros [?|?]; easy].
Qed.

Lemma get_absent (k : string) (d : dict) :
  ~ In k (map fst d) -> get k d = None.
Proof.
  intros H. rewrite <- mem_keys in H. unfold mem in H.
  destruct (get k d); [now destruct H | reflexivity].
Qed.

(** A guarded [del] does not raise. *)
Lemma del_present (k : string) (d : dict) :
  mem k d = true -> exists d', del k d = Some d'.
Proof.
  unfold mem. induction d as [|[k' v'] d IH]; simpl; [discriminate|].
  destruct (String.eqb k' k); [eauto|].
  intros H. destruct (IH H) as [d' ->]. simpl. eauto.
Qed.

Lemma del_some_mem (k : string) (d d' : dict) :
  del k d = Some d' -> mem k d = true.
Proof.
  unfold mem. revert d'.
  induction d as [|[k' v'] d IH]; simpl; intros d'; [discriminate|].
  destruct (String.eqb k' k); [reflexivity|].
  destruct (del k d) as [r|]; [eauto | discriminate].
Qed.

Lemma del_keys (k k0 : string) (d d' : dict) :
  del k d = Some d' -> In k0 (map fst d') -> In k0 (map fst d).
Proof.
  revert d'. induction d as [|[k' v'] d IH]; simpl; intros d'; [discriminate|].
  destruct (String.eqb k' k).
  - intros [= <-]. auto.
  - destruct (del k d) as [r|]; simpl; [|discriminate].
    intros [= <-]. simpl. intros [->|H]; eauto.
Qed.

Lemma del_NoDup (k : string) (d d' : dict) :
  del k d = Some d' -> NoDup (map fst d) -> NoDup (map fst d').
Proof.
  revert d'. induction d as [|[k' v'] d IH]; simpl; intros d'; [discriminate|].
  intros H Hnd. inversion Hnd as [|? ? Hk Hd]; subst.
  destruct (String.eqb k' k).
  - now injection H as <-.
  - destruct (del k d) as [r|] eqn:E; simpl in H; [|discriminate].
    injection H as <-. simpl. constructor; eauto using del_keys.
Qed.

(** With distinct keys, [del] takes the key out and keeps the others. *)
Lemma get_del_same (k : string) (d d' : dict) :
  del k d = Some d' -> NoDup (map fst d) -> get k d' = None.
Proof.
  revert d'. induction d as [|[k' v'] d IH]; simpl; intros d'; [discriminate|].
  intros H Hnd. inversion Hnd as [|? ? Hk Hd]; subst.
  destruct (String.eqb k' k) eqn:E.
  - injection H as <-. apply String.eqb_eq in E. subst k'.
    now apply get_absent.
  - destruct (del k d) as [r|] eqn:Er; simpl in H; [|discriminate].
    injection H as <-. simpl. rewrite E. eauto.
Qed.

Lemma get_del_other (k k0 : string) (d d' : dict) :
  del k d = Some d' -> k0 <> k -> get k0 d' = get k0 d.
Proof.
  revert d'. induction d as [|[k' v'] d IH]; simpl; intros d'; [discriminate|].
  intros H Hne.
  destruct (String.eqb k' k) eqn:E.
  - injection H as <-. apply String.eqb_eq in E. subst k'.
    destruct (String.eqb k k0) eqn:E0; auto.
    apply String.eqb_eq in E0. congruence.
  - destruct (del k d) as [r|] eqn:Er; simpl in H; [|discriminate].
    injection H as <-. simpl. destruct (String.eqb k' k0); eauto.
Qed.

Lemma del_length (k : string) (d d' : dict) :
  del k d = Some d' -> List.length d = S (List.length d').
Proof.
  revert d'. induction d as [|[k' v'] d IH]; simpl; intros d'; [discriminate|].
  destruct (String.eqb k' k).
  - now intros [= <-].
  - destruct (del k d) as [r|]; simpl; [|discriminate].
    intros [= <-]. simpl. f_equal. eauto.
Qed.

(** Deleting a key that was just stored in a table that did not hold it
    gives the table back. *)
Lemma del_set_fresh (k v : string) (d : dict) :
  mem k d = false -> del k (set k v d) = Some d.
Proof.
  unfold mem. induction d as [|[k' v'] d IH]; simpl.
  - now rewrite String.eqb_refl.
  - destruct (String.eqb k' k) eqn:E; [discriminate|].
    intros H. simpl. rewrite E, (IH H). reflexivity.
Qed.

Lemma mem_set (k v : string) (d : dict) : mem k (set k v d) = true.
Proof. unfold mem. now rewrite get_set_same. Qed.

Lemma set_NoDup (k v : string) (d : dict) :
  NoDup (map fst d) -> NoDup (map fst (set k v d)).
Proof.
  intros Hnd. rewrite keys_set. destruct (mem k d) eqn:E; auto.
  apply NoDup_app; auto.
  - constructor; [easy | constructor].
  - intros a Ha [<- | []]. apply mem_keys in Ha. congruence.
Qed.
End DelFacts.

(** ** Decimal numerals *)

Lemma digits_from_uint (d : Decimal.uint) :
  forall acc,
    digits_from acc false (NilEmpty.string_of_uint d) = Some (uint_val acc d).
Proof. induction d; intros acc; simpl; auto. Qed.

Lemma uint_val_revapp (d : Decimal.uint) :
  forall l,
    Z.of_N (Unsigned.of_lu (Decimal.revapp d l))
    = uint_val (Z.of_N (Unsigned.of_lu l)) d.
Proof.
  induction d; intros l; cbn [Decimal.revapp uint_val]; auto;
    rewrite IHd; f_equal; cbn [Unsigned.of_lu]; lia.
Qed.

Lemma uint_val_of_uint (d : Decimal.uint) :
  uint_val 0 d = Z.of_N (Pos.of_uint d).
Proof.
  rewrite Unsigned.of_uint_alt. unfold Decimal.rev.
  now rewrite uint_val_revapp.
Qed.

Lemma literal_uint (d : Decimal.uint) :
  d <> Decimal.Nil ->
  literal (NilEmpty.string_of_uint d) = Some (Z.of_N (Pos.of_uint d)).
Proof.
  intros Hd. rewrite <- uint_val_of_uint.
  destruct d; try congruence; simpl; apply digits_from_uint.
Qed.

Lemma py_int_uint (d : Decimal.uint) :
  d <> Decimal.Nil ->
  py_int (NilEmpty.string_of_uint d) = literal (NilEmpty.string_of_uint d).
Proof. destruct d; try congruence; reflexivity. Qed.

Lemma py_int_of_py_str (z : Z) : py_int (py_str z) = Some z.
Proof.
  unfold py_str. destruct z as [|p|p]; [reflexivity| |]; simpl;
    pose proof (Unsigned.to_uint_nonnil p) as Hn;
    unfold NilZero.string_of_uint;
    destruct (Pos.to_uint p) eqn:E; try congruence; rewrite <- E in *.
  all: try (rewrite py_int_uint, literal_uint by auto;
            now rewrite Unsigned.of_to).
  all: cbn [py_int]; rewrite literal_uint by auto;
    now rewrite Unsigned.of_to.
Qed.

Lemma py_str_truthy (z : Z) : truthy (py_str z) = true.
Proof.
  pose proof (py_int_of_py_str z) as H.
  destruct (py_str z); [discriminate | reflexivity].
Qed.

Lemma join_truthy (sep x : string) (l : list string) :
  truthy x = true -> truthy (join sep (x :: l)) = true.
Proof. destruct x; [discriminate|]. destruct l; reflexivity. Qed.

(** ** Tokens *)

(** Every token of [split] is non-empty and free of white space. *)
Lemma split_from_tokens (s : string) :
  forall cur,
    no_space cur = true ->
    Forall (fun t => truthy t = true /\ no_space t = true) (split_from cur s).
Proof.
  induction s as [|c s IH]; intros cur Hcur; simpl.
  - destruct cur; repeat constructor; auto.
  - destruct (isspace c) eqn:Ec.
    + destruct cur; [apply IH; reflexivity|].
      constructor; [auto | apply IH; reflexivity].
    + apply IH. clear IH. induction cur as [|a cur IHc]; simpl.
      * now rewrite Ec.
      * simpl in Hcur. apply andb_prop in Hcur as [Ha Hc].
        now rewrite Ha, IHc.
Qed.

Lemma split_tokens (s : string) :
  Forall (fun t => truthy t = true /\ no_space t = true) (split s).
Proof. apply split_from_tokens. reflexivity. Qed.

(** ** Every path of every handler *)

(** Splits on the test the handler makes next. *)
Ltac branch :=
  run;
  match goal with
  | |- context [match ?x with _ => _ end] =>
      lazymatch x with
      | context [match _ with _ => _ end] => fail
      | _ => destruct x eqn:?
      end
  end.

Ltac paths := repeat branch; run.

Ltac start_handler :=
  unfold result_of, state_of, trace_of;
  cbv beta iota delta
    [handler handle_command add_command remove_command list_commands
     view_roles assign_role].

Section AllPaths.
Variables (c : Call) (st : State).

(** X1: whatever the call, every file a handler writes carries the
    content the matching global has when the handler ends:
    [admins.json] holds [ADMINS], [mods.json] holds [MODERATORS] and
    [commands.json] holds [COMMANDS]. *)
Theorem file_writes_in_sync :
  Forall (in_sync (state_of (handler c st))) (trace_of (handler c st)).
Proof.
  destruct c; start_handler; paths; cbn [fst snd];
    repeat (apply Forall_cons || apply Forall_nil); cbn;
    first [ exact I
          | left; split; reflexivity
          | right; left; split; reflexivity
          | right; right; split; reflexivity ].
Qed.


(** X3: [handle_command], [list_commands] and [view_roles] only read:
    for every sender and text they leave the globals as they were and
    write no file. *)
Theorem read_only_handlers :
  match c with
  | HandleCommand _ | ListCommands _ | ViewRoles _ =>
      state_of (handler c st) = st
      /\ filter is_persist (trace_of (handler c st)) = []
  | _ => True
  end.
Proof.
  destruct c; try exact I; start_handler; paths; cbn; auto.
Qed.

(** A call by a sender who is not an admin changes nothing and writes
    no file. *)
Lemma handler_not_admin :
  is_admin (caller c) st = false ->
  state_of (handler c st) = st
  /\ filter is_persist (trace_of (handler c st)) = [].
Proof.
  destruct c; cbn [caller]; intros Hadm; start_handler; run;
    rewrite ?Hadm; paths; cbn; auto.
Qed.

(** X4: each mutating handler touches its own global only.
    [add_command] and [remove_command] never change the role lists;
    [assign_role] never changes the table, changes [ADMINS] only when its
    first argument is [admin] and [MODERATORS] only when it is
    [moderator], so the two roles are independent. *)
Theorem handlers_touch_their_own_global :
  let st' := state_of (handler c st) in
  match c with
  | AddCommand _ _ | RemoveCommand _ _ =>
      ADMINS st' = ADMINS st /\ MODERATORS st' = MODERATORS st
  | AssignRole _ args =>
      COMMANDS st' = COMMANDS st
      /\ (PyList.item args 0 <> Some "admin" -> ADMINS st' = ADMINS st)
      /\ (PyList.item args 0 <> Some "moderator" ->
          MODERATORS st' = MODERATORS st)
  | _ => True
  end.
Proof.
  destruct c; start_handler; paths; cbn; auto;
    repeat split; auto; intros Hne;
    repeat match goal with
      | H : String.eqb _ _ = true |- _ => apply String.eqb_eq in H; subst
      end; congruence.
Qed.

Lemma handler_well_formed :
  well_formed st -> well_formed (state_of (handler c st)).
Proof.
  intros (Ha & Hm & Hc).
  destruct c; start_handler; paths; cbn; unfold well_formed; cbn;
    repeat split; auto;
    repeat match goal with
      | H : negb _ = true |- _ => apply negb_true_iff in H
      end;
    eauto using set_NoDup, del_NoDup, append_NoDup, remove_NoDup.
Qed.

End AllPaths.

(** ** Removing a command, and the usage replies *)

Section Removal.
Variables (st : State) (update : Update).
Hypothesis admin : is_admin (effective_user_id update) st = true.

Lemma remove_command_runs (token : string) (table : PyDict.dict) :
  PyDict.del token (COMMANDS st) = Some table ->
  remove_command update [token] st
    = (Returned tt, set_COMMANDS table st,
       [json_dump "commands.json" (JDict table);
        reply_text ("Command " ++ token ++ " removed.");
        logger INFO
          ("Command " ++ token ++ " removed by admin "
           ++ py_str (effective_user_id update))]).
Proof.
  intros Hdel. unfold remove_command. run_with admin.
  cbn [List.length Nat.eqb]. run.
  rewrite (del_some_mem _ _ _ Hdel). run. rewrite Hdel. reflexivity.
Qed.

(** X6: [remove_command] by an admin for a token of the table (whose
    keys are distinct, as a dict's are) deletes that entry and no other:
    the token is no longer found, every other token keeps its response,
    the table is one entry shorter, the new table is written to
    [commands.json] and the reply is [Command <token> removed.]. *)
Theorem remove_command_removes (token : string) :
  PyDict.mem token (COMMANDS st) = true ->
  NoDup (map fst (COMMANDS st)) ->
  exists table : PyDict.dict,
    remove_command update [token] st
      = (Returned tt, set_COMMANDS table st,
         [json_dump "commands.json" (JDict table);
          reply_text ("Command " ++ token ++ " removed.");
          logger INFO
            ("Command " ++ token ++ " removed by admin "
             ++ py_str (effective_user_id update))])
    /\ PyDict.get token table = None
    /\ (forall other, other <> token ->
          PyDict.get other table = PyDict.get other (COMMANDS st))
    /\ List.length (COMMANDS st) = S (List.length table).
Proof.
  intros Hmem Hnd. destruct (del_present _ _ Hmem) as [table Hdel].
  exists table. repeat split.
  - now apply remove_command_runs.
  - eapply get_del_same; eauto.
  - intros other Hne. eapply get_del_other; eauto.
  - eapply del_length; eauto.
Qed.

(** X7: wrong argument counts.  For an admin, [remove_command] with any
    number of arguments other than one (none, or a token followed by more
    words) and [assign_role] with any number other than three reply with
    their usage text and change nothing. *)
Theorem wrong_count_usage (args : list string) :
  (List.length args <> 1%nat ->
   remove_command update args st
     = (Returned tt, st, [reply_text "Usage: /remove_command <command>"]))
  /\ (List.length args <> 3%nat ->
      assign_role update args st
        = (Returned tt, st,
           [reply_text
              "Usage: /assign <admin|moderator> <add|remove> <user_id>"])).
Proof.
  split; intros Hlen.
  - unfold remove_command. run_with admin.
    apply Nat.eqb_neq in Hlen. now rewrite Hlen.
  - unfold assign_role. run_with admin.
    apply Nat.eqb_neq in Hlen. now rewrite Hlen.
Qed.

(** X8: [add_command] keeps the order of the table, which is the order
    of the help listing: a token already in the table stays at its place,
    a new token goes last. *)
Theorem add_command_keeps_order (token arg1 : string) (rest : list string) :
  let st' := state_of (add_command update (token :: arg1 :: rest) st) in
  map fst (COMMANDS st')
  = if PyDict.mem token (COMMANDS st)
    then map fst (COMMANDS st)
    else (map fst (COMMANDS st) ++ [token])%list.
Proof.
  intros st'. subst st'. rewrite add_command_stores by exact admin.
  cbn. apply keys_set.
Qed.

End Removal.

(** ** Granting and revoking a role *)

Section Grant.
Variables (st : State) (update : Update).
Hypothesis admin : is_admin (effective_user_id update) st = true.
Variables (arg2 : string) (target : Z).
Hypothesis parsed : py_int arg2 = Some target.

Ltac assign :=
  unfold assign_role; run_with admin;
  cbn [List.length Nat.eqb]; run; rewrite parsed; run;
  cbn [String.eqb Ascii.eqb Bool.eqb]; run.

Lemma add_admin_runs :
  PyList.py_in target (ADMINS st) = false ->
  assign_role update ["admin"; "add"; arg2] st
    = (Returned tt, set_ADMINS (PyList.append target (ADMINS st)) st,
       [json_dump "admins.json" (JList (PyList.append target (ADMINS st)));
        reply_text ("User " ++ py_str target ++ " added as admin.");
        logger INFO
          ("User " ++ py_str target ++ " added as admin by "
           ++ py_str (effective_user_id update))]).
Proof. intros H. assign. rewrite H. reflexivity. Qed.

Lemma add_moderator_runs :
  PyList.py_in target (MODERATORS st) = false ->
  assign_role update ["moderator"; "add"; arg2] st
    = (Returned tt, set_MODERATORS (PyList.append target (MODERATORS st)) st,
       [json_dump "mods.json" (JList (PyList.append target (MODERATORS st)));
        reply_text ("User " ++ py_str target ++ " added as moderator.");
        logger INFO
          ("User " ++ py_str target ++ " added as moderator by "
           ++ py_str (effective_user_id update))]).
Proof. intros H. assign. rewrite H. reflexivity. Qed.

Lemma remove_admin_runs (l : list Z) :
  PyList.remove target (ADMINS st) = Some l ->
  PyList.py_in target (ADMINS st) = true ->
  assign_role update ["admin"; "remove"; arg2] st
    = (Returned tt, set_ADMINS l st,
       [json_dump "admins.json" (JList l);
        reply_text ("User " ++ py_str target ++ " removed from admins.");
        logger INFO
          ("User " ++ py_str target ++ " removed from admins by "
           ++ py_str (effective_user_id update))]).
Proof. intros Hl H. assign. rewrite H. run. rewrite Hl. reflexivity. Qed.

Lemma remove_moderator_runs (l : list Z) :
  PyList.remove target (MODERATORS st) = Some l ->
  PyList.py_in target (MODERATORS st) = true ->
  assign_role update ["moderator"; "remove"; arg2] st
    = (Returned tt, set_MODERATORS l st,
       [json_dump "mods.json" (JList l);
        reply_text ("User " ++ py_str target ++ " removed from moderators.");
        logger INFO
          ("User " ++ py_str target ++ " removed from moderators by "
           ++ py_str (effective_user_id update))]).
Proof. intros Hl H. assign. rewrite H. run. rewrite Hl. reflexivity. Qed.

(** X9: granting a role.  For an admin's [/assign admin add <id>] with
    the identity not yet in [ADMINS], the identity is appended at the end
    of the list, the list is written to [admins.json], the reply is
    [User <id> added as admin.], and afterwards exactly the former admins
    and the target are admins.  The same holds for [moderator] with
    [MODERATORS] and [mods.json]. *)
Theorem role_add_grants :
  (PyList.py_in target (ADMINS st) = false ->
   let o := assign_role update ["admin"; "add"; arg2] st in
   o = (Returned tt, set_ADMINS (ADMINS st ++ [target]) st,
        [json_dump "admins.json" (JList (ADMINS st ++ [target]));
         reply_text ("User " ++ py_str target ++ " added as admin.");
         logger INFO
           ("User " ++ py_str target ++ " added as admin by "
            ++ py_str (effective_user_id update))])
   /\ forall x, is_admin x (state_of o) = is_admin x st || Z.eqb x target)
  /\ (PyList.py_in target (MODERATORS st) = false ->
      let o := assign_role update ["moderator"; "add"; arg2] st in
      o = (Returned tt, set_MODERATORS (MODERATORS st ++ [target]) st,
           [json_dump "mods.json" (JList (MODERATORS st ++ [target]));
            reply_text ("User " ++ py_str target ++ " added as moderator.");
            logger INFO
              ("User " ++ py_str target ++ " added as moderator by "
               ++ py_str (effective_user_id update))])
      /\ forall x,
           is_moderator x (state_of o) = is_moderator x st || Z.eqb x target).
Proof.
  split; intros Habs o; subst o.
  - rewrite add_admin_runs by assumption. split; [reflexivity|].
    intros x. apply py_in_append.
  - rewrite add_moderator_runs by assumption. split; [reflexivity|].
    intros x. apply py_in_append.
Qed.

(** X10: revoking a role.  For an admin's [/assign admin remove <id>]
    with the identity in a duplicate-free [ADMINS], the list without the
    identity is written to [admins.json], the reply is
    [User <id> removed from admins.], and afterwards exactly the former
    admins other than the target are admins (the sender included, who may
    remove themselves).  The same holds for [moderator]. *)
Theorem role_remove_revokes :
  (PyList.py_in target (ADMINS st) = true -> NoDup (ADMINS st) ->
   exists l : list Z,
     let o := assign_role update ["admin"; "remove"; arg2] st in
     o = (Returned tt, set_ADMINS l st,
          [json_dump "admins.json" (JList l);
           reply_text ("User " ++ py_str target ++ " removed from admins.");
           logger INFO
             ("User " ++ py_str target ++ " removed from admins by "
              ++ py_str (effective_user_id update))])
     /\ forall x,
          is_admin x (state_of o) = is_admin x st && negb (Z.eqb x target))
  /\ (PyList.py_in target (MODERATORS st) = true -> NoDup (MODERATORS st) ->
      exists l : list Z,
        let o := assign_role update ["moderator"; "remove"; arg2] st in
        o = (Returned tt, set_MODERATORS l st,
             [json_dump "mods.json" (JList l);
              reply_text
                ("User " ++ py_str target ++ " removed from moderators.");
              logger INFO
                ("User " ++ py_str target ++ " removed from moderators by "
                 ++ py_str (effective_user_id update))])
        /\ forall x,
             is_moderator x (state_of o)
             = is_moderator x st && negb (Z.eqb x target)).
Proof.
  split; intros Hin Hnd; destruct (remove_present _ _ Hin) as [l Hl];
    exists l; intros o; subst o.
  - rewrite (remove_admin_runs l) by assumption. split; [reflexivity|].
    intros x. cbn. unfold is_admin. eapply remove_member; eauto.
  - rewrite (remove_moderator_runs l) by assumption. split; [reflexivity|].
    intros x. cbn. unfold is_moderator. eapply remove_member; eauto.
Qed.

End Grant.

(** ** Composing calls *)

Lemma set_COMMANDS_same (st : State) : set_COMMANDS (COMMANDS st) st = st.
Proof. now destruct st. Qed.

Lemma set_ADMINS_same (st : State) : set_ADMINS (ADMINS st) st = st.
Proof. now destruct st. Qed.

Lemma set_MODERATORS_same (st : State) : set_MODERATORS (MODERATORS st) st = st.
Proof. now destruct st. Qed.

Lemma serve_two (c1 c2 : Call) (st : State) :
  fst (serve [c1; c2] st)
  = state_of (handler c2 (state_of (handler c1 st))).
Proof. reflexivity. Qed.

(** X11: adding a command under a token the table did not hold and then
    removing it restores the globals exactly. *)
Theorem add_then_remove_command
    (st : State) (u1 u2 : Update) (token arg1 : string) (rest : list string) :
  is_admin (effective_user_id u1) st = true ->
  is_admin (effective_user_id u2) st = true ->
  PyDict.mem token (COMMANDS st) = false ->
  fst (serve [AddCommand u1 (token :: arg1 :: rest); RemoveCommand u2 [token]]
         st) = st.
Proof.
  intros H1 H2 Hfresh. rewrite serve_two. cbn [handler].
  rewrite add_command_stores by exact H1. cbn [state_of fst snd].
  rewrite (remove_command_runs
             (set_COMMANDS
                (PyDict.set token (join " " (arg1 :: rest)) (COMMANDS st)) st)
             u2 H2 token (COMMANDS st)).
  - cbn. now destruct st.
  - cbn. now apply del_set_fresh.
Qed.

(** X12: granting a role to an identity that did not hold it and then
    revoking it restores the globals exactly, order of the list
    included, for both roles. *)
Theorem grant_then_revoke
    (st : State) (u1 u2 : Update) (s1 s2 : string) (target : Z) :
  is_admin (effective_user_id u1) st = true ->
  is_admin (effective_user_id u2) st = true ->
  py_int s1 = Some target -> py_int s2 = Some target ->
  (PyList.py_in target (ADMINS st) = false ->
   fst (serve [AssignRole u1 ["admin"; "add"; s1];
               AssignRole u2 ["admin"; "remove"; s2]] st) = st)
  /\ (PyList.py_in target (MODERATORS st) = false ->
      fst (serve [AssignRole u1 ["moderator"; "add"; s1];
                  AssignRole u2 ["moderator"; "remove"; s2]] st) = st).
Proof.
  intros H1 H2 P1 P2. split; intros Habs; rewrite serve_two; cbn [handler].
  - rewrite (add_admin_runs st u1 H1 s1 target P1 Habs).
    cbn [state_of fst snd].
    assert (A2 : is_admin (effective_user_id u2)
                   (set_ADMINS (PyList.append target (ADMINS st)) st) = true).
    { unfold is_admin in *. cbn [ADMINS set_ADMINS].
      rewrite py_in_append, H2. reflexivity. }
    rewrite (remove_admin_runs _ u2 A2 s2 target P2 (ADMINS st)).
    + cbn. now destruct st.
    + cbn [ADMINS MODERATORS set_ADMINS set_MODERATORS].
      now apply remove_append.
    + cbn [ADMINS MODERATORS set_ADMINS set_MODERATORS].
      rewrite py_in_append, Z.eqb_refl. apply orb_true_r.
  - rewrite (add_moderator_runs st u1 H1 s1 target P1 Habs).
    cbn [state_of fst snd].
    rewrite (remove_moderator_runs
               (set_MODERATORS (PyList.append target (MODERATORS st)) st)
               u2 H2 s2 target P2 (MODERATORS st)).
    + cbn. now destruct st.
    + cbn [ADMINS MODERATORS set_ADMINS set_MODERATORS].
      now apply remove_append.
    + cbn [ADMINS MODERATORS set_ADMINS set_MODERATORS].
      rewrite py_in_append, Z.eqb_refl. apply orb_true_r.
Qed.

(** With no admin, nothing changes any more. *)
Lemma serve_no_admin (calls : list Call) :
  forall st, ADMINS st = [] -> fst (serve calls st) = st.
Proof.
  induction calls as [|c calls IH]; intros st Hno; [reflexivity|].
  cbn [serve fst].
  assert (Hst : state_of (handler c st) = st).
  { apply handler_not_admin. unfold is_admin. now rewrite Hno. }
  rewrite Hst. now apply IH.
Qed.

(** X13: the last admin can remove themselves, and nothing can be
    changed afterwards: when the sender is the only admin,
    [/assign admin remove <own id>] empties [ADMINS], and from then on no
    sequence of calls, by any senders with any arguments, changes the
    globals. *)
Theorem last_admin_lockout
    (st : State) (update : Update) (arg2 : string) (calls : list Call) :
  ADMINS st = [effective_user_id update] ->
  py_int arg2 = Some (effective_user_id update) ->
  let st1 := state_of (assign_role update ["admin"; "remove"; arg2] st) in
  ADMINS st1 = [] /\ fst (serve calls st1) = st1.
Proof.
  intros Hone Hparse st1.
  assert (Hadm : is_admin (effective_user_id update) st = true).
  { unfold is_admin. rewrite Hone. cbn. now rewrite Z.eqb_refl. }
  assert (H1 : ADMINS st1 = []).
  { subst st1.
    rewrite (remove_admin_runs st update Hadm arg2 _ Hparse []).
    - reflexivity.
    - rewrite Hone. cbn. now rewrite Z.eqb_refl.
    - exact Hadm. }
  split; [exact H1 | now apply serve_no_admin].
Qed.

(** ** The roles listing *)

Lemma py_or_truthy (a b : string) : truthy a = true -> py_or a b = a.
Proof. unfold py_or. now intros ->. Qed.

(** X14: [view_roles] by an admin replies with the admins one per line
    and the moderators one per line, or [No moderators.] when there is
    none, and changes nothing.  The [No admins.] text is never shown: the
    sender is in [ADMINS], so the list is not empty. *)
Theorem view_roles_reply (st : State) (update : Update) :
  is_admin (effective_user_id update) st = true ->
  view_roles update st
    = (Returned tt, st,
       [reply_text (roles_text (ADMINS st) (MODERATORS st));
        logger INFO
          ("Roles list requested by user "
           ++ py_str (effective_user_id update))]).
Proof.
  intros Hadm. unfold view_roles. run_with Hadm. unfold roles_text.
  assert (Ha : py_or (join nl (map py_str (ADMINS st))) "No admins."
               = join nl (map py_str (ADMINS st))).
  { apply py_or_truthy. unfold is_admin in Hadm.
    destruct (ADMINS st) as [|a l]; [discriminate|].
    apply join_truthy, py_str_truthy. }
  rewrite Ha.
  destruct (MODERATORS st) as [|m l]; [reflexivity|].
  rewrite py_or_truthy; [reflexivity|].
  apply join_truthy, py_str_truthy.
Qed.

(** ** From a stored command to its reply *)

(** X15: from a stored command to its reply.  When an admin's message
    splits into the command, a token and at least one more word, and
    [add_command] is run on the words after the command, then any admin
    or moderator whose message starts with that token is sent the stored
    words joined by single spaces, and the triggering message is
    deleted. *)
Theorem stored_command_is_served
    (st : State) (u1 u2 : Update)
    (cmd token arg1 : string) (rest : list string) :
  split (message_text u1) = cmd :: token :: arg1 :: rest ->
  is_admin (effective_user_id u1) st = true ->
  is_admin (effective_user_id u2) st
  || is_moderator (effective_user_id u2) st = true ->
  PyList.item (split (message_text u2)) 0 = Some token ->
  let st1 := state_of (add_command u1 (token :: arg1 :: rest) st) in
  handle_command u2 st1
    = (Returned tt, st1,
       [send_message (effective_chat_id u2) (join " " (arg1 :: rest))
          "Markdown";
        delete_message (effective_chat_id u2) (message_id u2);
        logger INFO
          ("Command " ++ token ++ " executed by user "
           ++ py_str (effective_user_id u2))]).
Proof.
  intros Hsplit Hadm Hauth Htok st1.
  assert (Harg : truthy arg1 = true).
  { pose proof (split_tokens (message_text u1)) as Hall.
    rewrite Hsplit in Hall.
    inversion Hall as [|? ? _ Hall1]; subst.
    inversion Hall1 as [|? ? _ Hall2]; subst.
    inversion Hall2 as [|? ? [Ht _] _]; subst. exact Ht. }
  subst st1. rewrite add_command_stores by exact Hadm. cbn [state_of fst snd].
  rewrite handle_command_runs with (command := token); auto.
  unfold custom_events. cbn [COMMANDS set_COMMANDS].
  rewrite get_set_same, join_truthy by exact Harg. reflexivity.
Qed.

(** X16: an identity as the replies print it reads back as the same
    identity: [int(str(n)) = n] for every integer, and [str(n)] is never
    empty. *)
Theorem py_int_py_str (z : Z) :
  py_int (py_str z) = Some z /\ truthy (py_str z) = true.
Proof. split; [apply py_int_of_py_str | apply py_str_truthy]. Qed.

(** ** Sequences of calls *)

(** X17: senders without the admin role cannot change anything: after
    any sequence of calls whose senders are not admins (moderators
    included) the globals are as before and no file was written. *)
Theorem non_admins_change_nothing (calls : list Call) (st : State) :
  Forall (fun c => is_admin (caller c) st = false) calls ->
  fst (serve calls st) = st
  /\ filter is_persist (snd (serve calls st)) = [].
Proof.
  induction calls as [|c calls IH]; intros Hall; [split; reflexivity|].
  inversion Hall as [|? ? Hc Hrest]; subst.
  destruct (handler_not_admin c st Hc) as [Hst Htr].
  cbn [serve fst snd]. rewrite Hst.
  destruct (IH Hrest) as [IH1 IH2]. split; [exact IH1|].
  now rewrite filter_app, Htr, IH2.
Qed.

(** X18: the handlers keep the role lists and the table free of
    duplicates: from globals without duplicates, every sequence of calls
    ends in globals without duplicates. *)
Theorem well_formed_preserved (calls : list Call) :
  forall st, well_formed st -> well_formed (fst (serve calls st)).
Proof.
  induction calls as [|c calls IH]; intros st Hwf; [exact Hwf|].
  cbn [serve fst]. apply IH. now apply handler_well_formed.
Qed.

(** ** Closed instances of the further properties *)


Lemma remove_command_removes_witness :
  is_admin 111 Sample.st = true
  /\ PyDict.mem "/greet" (COMMANDS Sample.st) = true
  /\ NoDup (map fst (COMMANDS Sample.st))
  /\ exists table : PyDict.dict,
       remove_command (Sample.upd 111 "/remove_command /greet") ["/greet"]
         Sample.st
       = (Returned tt, set_COMMANDS table Sample.st,
          [json_dump "commands.json" (JDict table);
           reply_text "Command /greet removed.";
           logger INFO "Command /greet removed by admin 111"])
       /\ PyDict.get "/greet" table = None
       /\ (forall other, other <> "/greet" ->
             PyDict.get other table = PyDict.get other (COMMANDS Sample.st))
       /\ List.length (COMMANDS Sample.st) = S (List.length table).
Proof.
  assert (Hnd : NoDup (map fst (COMMANDS Sample.st))).
  { repeat constructor. simpl. tauto. }
  split; [reflexivity|]. split; [reflexivity|]. split; [exact Hnd|].
  exact (remove_command_removes Sample.st
           (Sample.upd 111 "/remove_command /greet") eq_refl "/greet"
           eq_refl Hnd).
Defined.

(** [/remove_command] without a token and [/assign admin add] without an
    identity. *)
Lemma wrong_count_usage_witness :
  is_admin 111 Sample.st = true
  /\ remove_command (Sample.upd 111 "/remove_command") [] Sample.st
     = (Returned tt, Sample.st,
        [reply_text "Usage: /remove_command <command>"])
  /\ assign_role (Sample.upd 111 "/assign admin add") ["admin"; "add"]
       Sample.st
     = (Returned tt, Sample.st,
        [reply_text
           "Usage: /assign <admin|moderator> <add|remove> <user_id>"]).
Proof.
  split; [reflexivity|]. split.
  - apply (proj1 (wrong_count_usage Sample.st
                    (Sample.upd 111 "/remove_command") eq_refl [])).
    simpl. lia.
  - apply (proj2 (wrong_count_usage Sample.st
                    (Sample.upd 111 "/assign admin add") eq_refl
                    ["admin"; "add"])).
    simpl. lia.
Defined.

Lemma add_command_keeps_order_witness :
  is_admin 111 Sample.st = true
  /\ map fst
       (COMMANDS
          (state_of (add_command (Sample.upd 111 "/add_command /bye See you")
                       ["/bye"; "See"; "you"] Sample.st)))
     = ["/greet"; "/bye"].
Proof.
  split; [reflexivity|].
  exact (add_command_keeps_order Sample.st
           (Sample.upd 111 "/add_command /bye See you") eq_refl
           "/bye" "See" ["you"]).
Defined.

(** The scenario [/assign moderator add 333], and [/assign admin add 333]. *)
Lemma role_add_grants_witness :
  is_admin 111 Sample.st = true
  /\ py_int "333" = Some 333%Z
  /\ PyList.py_in 333 (ADMINS Sample.st) = false
  /\ PyList.py_in 333 (MODERATORS Sample.st) = false
  /\ assign_role (Sample.upd 111 "/assign admin add 333")
       ["admin"; "add"; "333"] Sample.st
     = (Returned tt, set_ADMINS [111%Z; 333%Z] Sample.st,
        [json_dump "admins.json" (JList [111%Z; 333%Z]);
         reply_text "User 333 added as admin.";
         logger INFO "User 333 added as admin by 111"])
  /\ assign_role (Sample.upd 111 "/assign admin add 333")
       ["moderator"; "add"; "333"] Sample.st
     = (Returned tt, set_MODERATORS [222%Z; 333%Z] Sample.st,
        [json_dump "mods.json" (JList [222%Z; 333%Z]);
         reply_text "User 333 added as moderator.";
         logger INFO "User 333 added as moderator by 111"]).
Proof.
  do 4 (split; [reflexivity|]).
  destruct (role_add_grants Sample.st (Sample.upd 111 "/assign admin add 333")
              eq_refl "333" 333%Z eq_refl) as [Ha Hm].
  split; [exact (proj1 (Ha eq_refl)) | exact (proj1 (Hm eq_refl))].
Defined.

Lemma role_remove_revokes_witness :
  is_admin 111 Sample.st = true
  /\ py_int "222" = Some 222%Z
  /\ PyList.py_in 222 (MODERATORS Sample.st) = true
  /\ NoDup (MODERATORS Sample.st)
  /\ exists l : list Z,
       assign_role (Sample.upd 111 "/assign moderator remove 222")
         ["moderator"; "remove"; "222"] Sample.st
       = (Returned tt, set_MODERATORS l Sample.st,
          [json_dump "mods.json" (JList l);
           reply_text "User 222 removed from moderators.";
           logger INFO "User 222 removed from moderators by 111"])
       /\ forall x,
            is_moderator x
              (state_of
                 (assign_role (Sample.upd 111 "/assign moderator remove 222")
                    ["moderator"; "remove"; "222"] Sample.st))
            = is_moderator x Sample.st && negb (Z.eqb x 222).
Proof.
  assert (Hnd : NoDup (MODERATORS Sample.st)).
  { repeat constructor. simpl. tauto. }
  do 3 (split; [reflexivity|]). split; [exact Hnd|].
  exact (proj2 (role_remove_revokes Sample.st
                  (Sample.upd 111 "/assign moderator remove 222") eq_refl
                  "222" 222%Z eq_refl) eq_refl Hnd).
Defined.

Lemma add_then_remove_command_witness :
  is_admin 111 Sample.st = true
  /\ PyDict.mem "/bye" (COMMANDS Sample.st) = false
  /\ fst (serve [AddCommand (Sample.upd 111 "/add_command /bye See you")
                   ["/bye"; "See"; "you"];
                 RemoveCommand (Sample.upd 111 "/remove_command /bye")
                   ["/bye"]] Sample.st) = Sample.st.
Proof.
  do 2 (split; [reflexivity|]).
  exact (add_then_remove_command Sample.st
           (Sample.upd 111 "/add_command /bye See you")
           (Sample.upd 111 "/remove_command /bye")
           "/bye" "See" ["you"] eq_refl eq_refl eq_refl).
Defined.

Lemma grant_then_revoke_witness :
  is_admin 111 Sample.st = true
  /\ py_int "333" = Some 333%Z
  /\ py_int "+333" = Some 333%Z
  /\ PyList.py_in 333 (ADMINS Sample.st) = false
  /\ PyList.py_in 333 (MODERATORS Sample.st) = false
  /\ fst (serve [AssignRole (Sample.upd 111 "/assign admin add 333")
                   ["admin"; "add"; "333"];
                 AssignRole (Sample.upd 111 "/assign admin remove +333")
                   ["admin"; "remove"; "+333"]] Sample.st) = Sample.st
  /\ fst (serve [AssignRole (Sample.upd 111 "/assign admin add 333")
                   ["moderator"; "add"; "333"];
                 AssignRole (Sample.upd 111 "/assign admin remove +333")
                   ["moderator"; "remove"; "+333"]] Sample.st) = Sample.st.
Proof.
  do 5 (split; [reflexivity|]).
  destruct (grant_then_revoke Sample.st
              (Sample.upd 111 "/assign admin add 333")
              (Sample.upd 111 "/assign admin remove +333")
              "333" "+333" 333%Z eq_refl eq_refl eq_refl eq_refl) as [Ha Hm].
  split; [exact (Ha eq_refl) | exact (Hm eq_refl)].
Defined.

(** Admin 111, the only one, removes themselves; then 111 tries to come
    back and to add a command. *)
Lemma last_admin_lockout_witness :
  ADMINS Sample.st = [111%Z]
  /\ py_int "111" = Some 111%Z
  /\ ADMINS (state_of (assign_role (Sample.upd 111 "/assign admin remove 111")
                         ["admin"; "remove"; "111"] Sample.st)) = []
  /\ fst (serve [AssignRole (Sample.upd 111 "/assign admin add 111")
                   ["admin"; "add"; "111"];
                 AddCommand (Sample.upd 111 "/add_command /x y") ["/x"; "y"]]
            (state_of (assign_role (Sample.upd 111 "/assign admin remove 111")
                         ["admin"; "remove"; "111"] Sample.st)))
     = state_of (assign_role (Sample.upd 111 "/assign admin remove 111")
                   ["admin"; "remove"; "111"] Sample.st).
Proof.
  do 2 (split; [reflexivity|]).
  exact (last_admin_lockout Sample.st
           (Sample.upd 111 "/assign admin remove 111") "111"
           [AssignRole (Sample.upd 111 "/assign admin add 111")
              ["admin"; "add"; "111"];
            AddCommand (Sample.upd 111 "/add_command /x y") ["/x"; "y"]]
           eq_refl eq_refl).
Defined.

Lemma view_roles_reply_witness :
  is_admin 111 Sample.st = true
  /\ view_roles (Sample.upd 111 "/view_roles") Sample.st
     = (Returned tt, Sample.st,
        [reply_text
           (join nl ["Admins:"; "111"; EmptyString; "Moderators:"; "222"]);
         logger INFO "Roles list requested by user 111"]).
Proof.
  split; [reflexivity|].
  exact (view_roles_reply Sample.st (Sample.upd 111 "/view_roles") eq_refl).
Defined.

(** The scenario [/add_command /bye See you] by admin 111, then [/bye]
    with trailing text by moderator 222. *)
Lemma stored_command_is_served_witness :
  split "/add_command /bye See   you" = ["/add_command"; "/bye"; "See"; "you"]
  /\ is_admin 111 Sample.st = true
  /\ is_admin 222 Sample.st || is_moderator 222 Sample.st = true
  /\ PyList.item (split "/bye for now") 0 = Some "/bye"
  /\ handle_command (Sample.upd 222 "/bye for now")
       (state_of (add_command (Sample.upd 111 "/add_command /bye See   you")
                    ["/bye"; "See"; "you"] Sample.st))
     = (Returned tt,
        state_of (add_command (Sample.upd 111 "/add_command /bye See   you")
                    ["/bye"; "See"; "you"] Sample.st),
        [send_message 5 "See you" "Markdown";
         delete_message 5 7;
         logger INFO "Command /bye executed by user 222"]).
Proof.
  do 4 (split; [reflexivity|]).
  exact (stored_command_is_served Sample.st
           (Sample.upd 111 "/add_command /bye See   you")
           (Sample.upd 222 "/bye for now")
           "/add_command" "/bye" "See" ["you"]
           eq_refl eq_refl eq_refl eq_refl).
Defined.

(** Moderator 222 and user 333 try every mutating command. *)
Lemma non_admins_change_nothing_witness :
  Forall (fun c => is_admin (caller c) Sample.st = false)
    [AddCommand (Sample.upd 222 "/add_command /x y") ["/x"; "y"];
     AssignRole (Sample.upd 333 "/assign admin add 333")
       ["admin"; "add"; "333"];
     RemoveCommand (Sample.upd 222 "/remove_command /greet") ["/greet"]]
  /\ fst (serve
            [AddCommand (Sample.upd 222 "/add_command /x y") ["/x"; "y"];
             AssignRole (Sample.upd 333 "/assign admin add 333")
               ["admin"; "add"; "333"];
             RemoveCommand (Sample.upd 222 "/remove_command /greet")
               ["/greet"]] Sample.st) = Sample.st.
Proof.
  assert (H : Forall (fun c => is_admin (caller c) Sample.st = false)
                [AddCommand (Sample.upd 222 "/add_command /x y") ["/x"; "y"];
                 AssignRole (Sample.upd 333 "/assign admin add 333")
                   ["admin"; "add"; "333"];
                 RemoveCommand (Sample.upd 222 "/remove_command /greet")
                   ["/greet"]]).
  { repeat constructor. }
  split; [exact H|].
  exact (proj1 (non_admins_change_nothing _ Sample.st H)).
Defined.

Lemma well_formed_preserved_witness :
  well_formed Sample.st
  /\ well_formed
       (fst (serve
               [AssignRole (Sample.upd 111 "/assign admin add 111")
                  ["admin"; "add"; "111"];
                AddCommand (Sample.upd 111 "/add_command /greet Hi")
                  ["/greet"; "Hi"]] Sample.st)).
Proof.
  assert (H : well_formed Sample.st).
  { unfold well_formed. simpl. repeat split; repeat constructor; simpl; tauto. }
  split; [exact H|].
  exact (well_formed_preserved
           [AssignRole (Sample.upd 111 "/assign admin add 111")
              ["admin"; "add"; "111"];
            AddCommand (Sample.upd 111 "/add_command /greet Hi")
              ["/greet"; "Hi"]] Sample.st H).
Defined.
